(** * Curation reconciler of the cluster-logging operator

    A shallow embedding of [pkg/k8shandler/curation.go].  The Go code talks
    to an external resource store through the operator SDK ([sdk.Create],
    [sdk.Get], [sdk.Update], [sdk.Delete]); here every such call is a
    transition of an abstract world [W], and each function of the file is a
    computation that threads the world, records the calls it issues, and may
    panic (Go's run-time index check).  Sleeping between retries is not
    modelled. *)

From Stdlib Require Import String List Bool ZArith Lia.
Import ListNotations.
Open Scope string_scope.

Set Implicit Arguments.

(** ** Go values *)

(** A Go slice: [nil] and the empty slice are different values, which
    [reflect.DeepEqual] tells apart. *)
Definition slice (A : Type) := option (list A).

(** [k8s.io/apimachinery/pkg/api/errors]: the reason carried by an API
    status error.  An error built by [fmt.Errorf] carries none. *)
Inductive StatusReason :=
| StatusReasonUnknown
| StatusReasonAlreadyExists
| StatusReasonNotFound
| StatusReasonConflict.

Record GoError := mkError { reason : StatusReason; message : string }.

(** Go's [error] interface value: [None] is [nil]. *)
Definition error := option GoError.

Definition IsAlreadyExists (e : GoError) : bool :=
  match reason e with StatusReasonAlreadyExists => true | _ => false end.
Definition IsNotFound (e : GoError) : bool :=
  match reason e with StatusReasonNotFound => true | _ => false end.
Definition IsConflict (e : GoError) : bool :=
  match reason e with StatusReasonConflict => true | _ => false end.

(** [fmt.Errorf(prefix + "%v", err)]: a plain error whose text is the prefix
    followed by the text of [err]. *)
Definition Errorf (prefix : string) (e : GoError) : GoError :=
  mkError StatusReasonUnknown (prefix ++ message e).

(** ** Kubernetes objects, with the fields the file reads or writes *)

Definition Quantity := string.

Module OwnerReference.
Record t := mk
  { APIVersion : string; Kind : string; Name : string; UID : string;
    Controller : option bool }.
End OwnerReference.

Module ObjectMeta.
Record t := mk
  { Name : string; Namespace : string; UID : string;
    ResourceVersion : string;
    Labels : list (string * string);
    OwnerReferences : list OwnerReference.t }.
End ObjectMeta.

Module ServiceAccount.
Record t := mk { Meta : ObjectMeta.t }.
End ServiceAccount.

Module ConfigMap.
Record t := mk { Meta : ObjectMeta.t; Data : list (string * string) }.
End ConfigMap.

Module Secret.
Record t := mk { Meta : ObjectMeta.t; Data : list (string * list Init.Byte.byte) }.
End Secret.

Module ResourceRequirements.
Record t := mk
  { Limits : list (string * Quantity); Requests : list (string * Quantity) }.
End ResourceRequirements.

Module EnvVar.
Record t := mk { Name : string; Value : string }.
End EnvVar.

Module VolumeMount.
Record t := mk { Name : string; ReadOnly : bool; MountPath : string }.
End VolumeMount.

Module Volume.
Inductive source := ConfigMapSource (name : string) | SecretSource (name : string).
Record t := mk { Name : string; VolumeSource : source }.
End Volume.

Module Container.
Record t := mk
  { Name : string; Image : string; ImagePullPolicy : string;
    Resources : ResourceRequirements.t;
    Env : list EnvVar.t;
    VolumeMounts : list VolumeMount.t }.
End Container.

Module PodSpec.
Record t := mk
  { Containers : list Container.t;
    Volumes : list Volume.t;
    ServiceAccountName : string;
    RestartPolicy : string;
    TerminationGracePeriodSeconds : option Z }.
End PodSpec.

Module PodTemplateSpec.
Record t := mk { Meta : ObjectMeta.t; Spec : PodSpec.t }.
End PodTemplateSpec.

Module JobSpec.
Record t := mk
  { BackoffLimit : option Z; Parallelism : option Z;
    Template : PodTemplateSpec.t }.
End JobSpec.

Module JobTemplateSpec.
Record t := mk { Spec : JobSpec.t }.
End JobTemplateSpec.

Module CronJobSpec.
Record t := mk
  { Schedule : string;
    Suspend : option bool;
    SuccessfulJobsHistoryLimit : option Z;
    FailedJobsHistoryLimit : option Z;
    JobTemplate : JobTemplateSpec.t }.
End CronJobSpec.

Module CronJob.
Record t := mk { Meta : ObjectMeta.t; Spec : CronJobSpec.t }.
End CronJob.

(** ** The ClusterLogging custom resource *)

Module CuratorStatus.
Record t := mk { CronJob : string; Schedule : string; Suspended : bool }.
End CuratorStatus.

Module CuratorSpec.
Record t := mk { Schedule : string }.
End CuratorSpec.

Module CurationSpec.
Record t := mk
  { Type_ : string;
    Resources : option ResourceRequirements.t;
    CuratorSpec : CuratorSpec.t }.
End CurationSpec.

Module ClusterLoggingSpec.
Record t := mk { ManagementState : string; Curation : CurationSpec.t }.
End ClusterLoggingSpec.

Module ClusterLogging.
Record t := mk
  { Meta : ObjectMeta.t;
    Spec : ClusterLoggingSpec.t;
    (* Status.Curation.CuratorStatus *)
    CuratorStatus : slice CuratorStatus.t }.
End ClusterLogging.

(** Modelled from the spec: the constants of the API package
    [pkg/apis/logging/v1alpha1], a package outside [pkg/k8shandler].
    Both types are Go strings; the spec names the "enabled Curator variant"
    and the "fully-managed" mode. *)
Definition CurationTypeCurator : string := "curator".
Definition ManagementStateManaged : string := "Managed".

(** The store's resource kinds and the objects sent to it. *)
Inductive Kind :=
| KServiceAccount | KConfigMap | KSecret | KCronJob | KClusterLogging.

Inductive Object :=
| ServiceAccountObj (o : ServiceAccount.t)
| ConfigMapObj (o : ConfigMap.t)
| SecretObj (o : Secret.t)
| CronJobObj (o : CronJob.t)
| ClusterLoggingObj (o : ClusterLogging.t).

Definition kindOf (o : Object) : Kind :=
  match o with
  | ServiceAccountObj _ => KServiceAccount
  | ConfigMapObj _ => KConfigMap
  | SecretObj _ => KSecret
  | CronJobObj _ => KCronJob
  | ClusterLoggingObj _ => KClusterLogging
  end.

Definition Kind_eqb (a b : Kind) : bool :=
  match a, b with
  | KServiceAccount, KServiceAccount | KConfigMap, KConfigMap
  | KSecret, KSecret | KCronJob, KCronJob
  | KClusterLogging, KClusterLogging => true
  | _, _ => false
  end.

Definition metaOf (o : Object) : ObjectMeta.t :=
  match o with
  | ServiceAccountObj x => ServiceAccount.Meta x
  | ConfigMapObj x => ConfigMap.Meta x
  | SecretObj x => Secret.Meta x
  | CronJobObj x => CronJob.Meta x
  | ClusterLoggingObj x => ClusterLogging.Meta x
  end.

(** ** Calls and log lines a computation leaves behind *)

Inductive Call :=
| CallCreate (o : Object)
| CallGet (o : Object)
| CallUpdate (o : Object)
| CallDelete (k : Kind) (namespace name : string)
| CallGetCuratorStatus (namespace : string)
| LogInfo (format : string) (args : list string).

(** ** Computations *)

Inductive result (A : Type) :=
| Returned (a : A)
| Panicked.
Arguments Panicked {A}.

Record Out (W A : Type) := mkOut
  { res : result A; world : W; calls : list Call }.

Definition M (W A : Type) := W -> Out W A.

Definition ret {W A} (a : A) : M W A :=
  fun w => mkOut (Returned a) w [].

Definition bind {W A B} (m : M W A) (f : A -> M W B) : M W B :=
  fun w =>
    let o := m w in
    match res o with
    | Panicked => mkOut Panicked (world o) (calls o)
    | Returned a =>
        let o' := f a (world o) in
        mkOut (res o') (world o') (calls o ++ calls o')
    end.

Definition panic {W A} : M W A :=
  fun w => mkOut Panicked w [].

(** One call to the outside: the event is recorded, the world moves. *)
Definition perform {W A} (c : Call) (step : W -> A * W) : M W A :=
  fun w => let '(a, w') := step w in mkOut (Returned a) w' [c].

Definition logInfo {W} (format : string) (args : list string) : M W unit :=
  fun w => mkOut (Returned tt) w [LogInfo format args].

Declare Scope go_scope.
Delimit Scope go_scope with go.
Notation "x <- m ;; k" := (bind m (fun x => k))
  (at level 61, m at next level, right associativity) : go_scope.
Notation "' p <- m ;; k" := (bind m (fun x => let 'p := x in k))
  (at level 61, p pattern, m at next level, right associativity) : go_scope.
(** [if err = f(); err != nil { return err }] followed by the rest. *)
Notation "'try' m ;; k" :=
  (bind m (fun err : error => match err with Some _ => ret err | None => k end))
  (at level 61, m at next level, right associativity) : go_scope.
Open Scope go_scope.

(** ** Field updates written by the Go code *)

Definition CronJob_Containers (j : CronJob.t) : list Container.t :=
  PodSpec.Containers
    (PodTemplateSpec.Spec
       (JobSpec.Template (JobTemplateSpec.Spec (CronJobSpec.JobTemplate (CronJob.Spec j))))).

(** [j.Spec.Schedule = s] *)
Definition set_Schedule (j : CronJob.t) (s : string) : CronJob.t :=
  let sp := CronJob.Spec j in
  CronJob.mk (CronJob.Meta j)
    (CronJobSpec.mk s (CronJobSpec.Suspend sp)
       (CronJobSpec.SuccessfulJobsHistoryLimit sp)
       (CronJobSpec.FailedJobsHistoryLimit sp) (CronJobSpec.JobTemplate sp)).

(** [j.Spec.Suspend = p] *)
Definition set_Suspend (j : CronJob.t) (p : option bool) : CronJob.t :=
  let sp := CronJob.Spec j in
  CronJob.mk (CronJob.Meta j)
    (CronJobSpec.mk (CronJobSpec.Schedule sp) p
       (CronJobSpec.SuccessfulJobsHistoryLimit sp)
       (CronJobSpec.FailedJobsHistoryLimit sp) (CronJobSpec.JobTemplate sp)).

Definition set_Image (c : Container.t) (image : string) : Container.t :=
  Container.mk (Container.Name c) image (Container.ImagePullPolicy c)
    (Container.Resources c) (Container.Env c) (Container.VolumeMounts c).

Definition set_Containers (j : CronJob.t) (cs : list Container.t) : CronJob.t :=
  let sp := CronJob.Spec j in
  let jt := JobTemplateSpec.Spec (CronJobSpec.JobTemplate sp) in
  let pt := JobSpec.Template jt in
  let ps := PodTemplateSpec.Spec pt in
  CronJob.mk (CronJob.Meta j)
    (CronJobSpec.mk (CronJobSpec.Schedule sp) (CronJobSpec.Suspend sp)
       (CronJobSpec.SuccessfulJobsHistoryLimit sp)
       (CronJobSpec.FailedJobsHistoryLimit sp)
       (JobTemplateSpec.mk
          (JobSpec.mk (JobSpec.BackoffLimit jt) (JobSpec.Parallelism jt)
             (PodTemplateSpec.mk (PodTemplateSpec.Meta pt)
                (PodSpec.mk cs (PodSpec.Volumes ps) (PodSpec.ServiceAccountName ps)
                   (PodSpec.RestartPolicy ps)
                   (PodSpec.TerminationGracePeriodSeconds ps)))))).

(** [j.Spec.JobTemplate.Spec.Template.Spec.Containers[0].Image = image], on a
    list whose first element exists. *)
Definition set_Image0 (j : CronJob.t) (image : string) : CronJob.t :=
  match CronJob_Containers j with
  | [] => j
  | c :: rest => set_Containers j (set_Image c image :: rest)
  end.

(** [cluster.Status.Curation.CuratorStatus = st] *)
Definition set_CuratorStatus (c : ClusterLogging.t) (st : slice CuratorStatus.t)
  : ClusterLogging.t :=
  ClusterLogging.mk (ClusterLogging.Meta c) (ClusterLogging.Spec c) st.

Definition cluster_Namespace (c : ClusterLogging.t) : string :=
  ObjectMeta.Namespace (ClusterLogging.Meta c).

(** [reflect.DeepEqual] on two [[]CuratorStatus] values. *)
Definition CuratorStatus_eqb (a b : CuratorStatus.t) : bool :=
  String.eqb (CuratorStatus.CronJob a) (CuratorStatus.CronJob b)
  && String.eqb (CuratorStatus.Schedule a) (CuratorStatus.Schedule b)
  && Bool.eqb (CuratorStatus.Suspended a) (CuratorStatus.Suspended b).

Fixpoint elementsDeepEqual (a b : list CuratorStatus.t) : bool :=
  match a, b with
  | [], [] => true
  | x :: a', y :: b' => CuratorStatus_eqb x y && elementsDeepEqual a' b'
  | _, _ => false
  end.

Definition DeepEqual (a b : slice CuratorStatus.t) : bool :=
  match a, b with
  | None, None => true
  | Some x, Some y => elementsDeepEqual x y
  | _, _ => false
  end.

(** ** The outside world *)

(** What the file consumes and does not define: the store behind the
    operator SDK, the status collector of [status.go], and the packaging
    inputs.  A store call returns its Go results and the next world; nothing
    is assumed about how the store answers. *)
Class Env (W : Type) := {
  store_Create : Object -> W -> error * W;
  (* sdk.Get decodes into the value it is handed: the result is that value
     after the call, next to the error. *)
  store_GetCronJob : CronJob.t -> W -> (error * CronJob.t) * W;
  store_GetClusterLogging : ClusterLogging.t -> W -> (error * ClusterLogging.t) * W;
  store_Update : Object -> W -> error * W;
  store_Delete : Kind -> string -> string -> W -> error * W;
  collect_CuratorStatus : string -> W -> (slice CuratorStatus.t * error) * W;
  AllInOne : ClusterLogging.t -> bool;
  GetFileContents : string -> string;
  GetWorkingDirFileContents : string -> list Init.Byte.byte;
  GetComponentImage : string -> string;
  defaultCuratorMemory : Quantity;
  defaultCuratorCpuRequest : Quantity
}.

(** [retry.DefaultRetry] of client-go: five attempts. *)
Record Backoff := mkBackoff { Steps : nat }.
Definition DefaultRetry : Backoff := mkBackoff 5.

Section Curation.

Context {W : Type} {EnvW : Env W}.

Definition sdk_Create (o : Object) : M W error :=
  perform (CallCreate o) (store_Create o).

Definition sdk_Update (o : Object) : M W error :=
  perform (CallUpdate o) (store_Update o).

Definition sdk_Delete (k : Kind) (namespace name : string) : M W error :=
  perform (CallDelete k namespace name) (store_Delete k namespace name).

Definition sdk_GetCronJob (into : CronJob.t) : M W (error * CronJob.t) :=
  perform (CallGet (CronJobObj into)) (store_GetCronJob into).

Definition sdk_GetClusterLogging (into : ClusterLogging.t)
  : M W (error * ClusterLogging.t) :=
  perform (CallGet (ClusterLoggingObj into)) (store_GetClusterLogging into).

(** [getCuratorStatus] of [status.go]: what it collects is a parameter of the
    environment. *)
Definition getCuratorStatus (namespace : string)
  : M W (slice CuratorStatus.t * error) :=
  perform (CallGetCuratorStatus namespace) (collect_CuratorStatus namespace).

(** [retry.RetryOnConflict]: run [fn] until it returns nil or an error that is
    not a conflict, at most [Steps] times; when the attempts run out the result
    is the last conflict.  [S] is what the closure keeps between attempts. *)
Fixpoint retryLoop {S : Type} (steps : nat) (fn : S -> M W (error * S)) (s : S)
  (lastConflictErr : error) : M W (error * S) :=
  match steps with
  | O => ret (lastConflictErr, s)
  | Datatypes.S n =>
      '(err, s') <- fn s ;;
      match err with
      | None => ret (None, s')
      | Some e =>
          if IsConflict e then retryLoop n fn s' (Some e)
          else ret (Some e, s')
      end
  end.

Definition RetryOnConflict {S : Type} (backoff : Backoff)
  (fn : S -> M W (error * S)) (s : S) : M W (error * S) :=
  retryLoop (Steps backoff) fn s None.

(** *** Helpers of [pkg/utils] *)

(** Modelled from the spec: the object constructors of [pkg/utils]
    ([ServiceAccount], [ConfigMap], [Secret], [Container], [PodSpec],
    [CronJob], [AsOwner], [AddOwnerRefToObject], [GetInt32], [GetInt64]), which
    live outside [pkg/k8shandler].  Every resource has a
    namespace-qualified name and carries an owner reference back to the
    ClusterLogging instance. *)
Definition utils_Meta (name namespace : string) (labels : list (string * string))
  : ObjectMeta.t :=
  ObjectMeta.mk name namespace "" "" labels [].

Definition utils_ServiceAccount (name namespace : string) : ServiceAccount.t :=
  ServiceAccount.mk (utils_Meta name namespace []).

Definition utils_ConfigMap (name namespace : string) (data : list (string * string))
  : ConfigMap.t :=
  ConfigMap.mk (utils_Meta name namespace []) data.

Definition utils_Secret (name namespace : string)
  (data : list (string * list Init.Byte.byte)) : Secret.t :=
  Secret.mk (utils_Meta name namespace []) data.

Definition utils_Container (name pullPolicy : string)
  (resources : ResourceRequirements.t) : Container.t :=
  Container.mk name (GetComponentImage name) pullPolicy resources [] [].

Definition utils_PodSpec (serviceAccountName : string)
  (containers : list Container.t) (volumes : list Volume.t) : PodSpec.t :=
  PodSpec.mk containers volumes serviceAccountName "" None.

Definition utils_CronJob (cronjobName namespace loggingComponent component : string)
  (spec : CronJobSpec.t) : CronJob.t :=
  CronJob.mk
    (utils_Meta cronjobName namespace
       [("provider", "openshift"); ("component", component);
        ("logging-infra", loggingComponent)])
    spec.

Definition utils_AsOwner (o : ClusterLogging.t) : OwnerReference.t :=
  OwnerReference.mk "logging.openshift.io/v1alpha1" "ClusterLogging"
    (ObjectMeta.Name (ClusterLogging.Meta o))
    (ObjectMeta.UID (ClusterLogging.Meta o)) (Some true).

Definition addOwnerRef (m : ObjectMeta.t) (r : OwnerReference.t) : ObjectMeta.t :=
  ObjectMeta.mk (ObjectMeta.Name m) (ObjectMeta.Namespace m) (ObjectMeta.UID m)
    (ObjectMeta.ResourceVersion m) (ObjectMeta.Labels m)
    (ObjectMeta.OwnerReferences m ++ [r]).

Definition utils_AddOwnerRefToObject (o : Object) (r : OwnerReference.t) : Object :=
  match o with
  | ServiceAccountObj x =>
      ServiceAccountObj (ServiceAccount.mk (addOwnerRef (ServiceAccount.Meta x) r))
  | ConfigMapObj x =>
      ConfigMapObj (ConfigMap.mk (addOwnerRef (ConfigMap.Meta x) r) (ConfigMap.Data x))
  | SecretObj x =>
      SecretObj (Secret.mk (addOwnerRef (Secret.Meta x) r) (Secret.Data x))
  | CronJobObj x =>
      CronJobObj (CronJob.mk (addOwnerRef (CronJob.Meta x) r) (CronJob.Spec x))
  | ClusterLoggingObj x =>
      ClusterLoggingObj
        (ClusterLogging.mk (addOwnerRef (ClusterLogging.Meta x) r)
           (ClusterLogging.Spec x) (ClusterLogging.CuratorStatus x))
  end.

(** [utils.AddOwnerRefToObject] on a value kept at its own type. *)
Definition ownedCronJob (j : CronJob.t) (r : OwnerReference.t) : CronJob.t :=
  CronJob.mk (addOwnerRef (CronJob.Meta j) r) (CronJob.Spec j).

Definition ownedSecret (s : Secret.t) (r : OwnerReference.t) : Secret.t :=
  Secret.mk (addOwnerRef (Secret.Meta s) r) (Secret.Data s).

Definition utils_GetInt32 (v : Z) : option Z := Some v.
Definition utils_GetInt64 (v : Z) : option Z := Some v.

(** Modelled from the spec: [utils.RemoveServiceAccount],
    [utils.RemoveConfigMap], [utils.RemoveSecret] and [utils.RemoveCronJob],
    which live outside [pkg/k8shandler].  Each deletes the named
    resource of the cluster's namespace; "not found" is success, any other
    store error is fatal and comes back wrapped with the operation and the
    resource. *)
Definition utils_Remove (k : Kind) (what : string) (cluster : ClusterLogging.t)
  (name : string) : M W error :=
  err <- sdk_Delete k (cluster_Namespace cluster) name ;;
  match err with
  | Some e =>
      if negb (IsNotFound e)
      then ret (Some (Errorf ("Failure deleting " ++ name ++ " " ++ what ++ ": ") e))
      else ret None
  | None => ret None
  end.

Definition utils_RemoveServiceAccount := utils_Remove KServiceAccount "service account".
Definition utils_RemoveConfigMap := utils_Remove KConfigMap "configmap".
Definition utils_RemoveSecret := utils_Remove KSecret "secret".
Definition utils_RemoveCronJob := utils_Remove KCronJob "cronjob".

(** Modelled from the spec: [utils.CreateOrUpdateSecret], which lives outside
    [pkg/k8shandler].  The credential bundle is one of the three
    write-once resources: creation is attempted, success and "already exists"
    are both success, any other store error is fatal and propagated with the
    resource kind and name; existing content is never read back or updated. *)
Definition utils_CreateOrUpdateSecret (secret : Secret.t) : M W error :=
  err <- sdk_Create (SecretObj secret) ;;
  match err with
  | Some e =>
      if negb (IsAlreadyExists e)
      then ret (Some (Errorf ("Failure constructing "
                                ++ ObjectMeta.Name (Secret.Meta secret)
                                ++ " secret: ") e))
      else ret None
  | None => ret None
  end.

(** Modelled from the spec: [utils.DoesClusterLoggingExist], which lives
    outside [pkg/k8shandler].  It re-fetches the owning ClusterLogging; the
    instance exists when the fetch succeeds, and the fetched value is handed
    back. *)
Definition utils_DoesClusterLoggingExist (cluster : ClusterLogging.t)
  : M W (bool * ClusterLogging.t) :=
  '(err, fetched) <- sdk_GetClusterLogging cluster ;;
  match err with
  | Some _ => ret (false, cluster)
  | None => ret (true, fetched)
  end.

(** *** [curation.go] *)

Definition defaultSchedule : string := "30 3,9,15,21 * * *".

(** [xs[0]]: Go panics when the index is out of range. *)
Definition index0 {A : Type} (xs : list A) : M W A :=
  match xs with
  | [] => panic
  | x :: _ => ret x
  end.

(** The error that makes a creation fail: any but "already exists". *)
Definition createFailure (err : error) : error :=
  match err with
  | Some e => if negb (IsAlreadyExists e) then Some e else None
  | None => None
  end.

Definition isCuratorDifferent (current desired : CronJob.t)
  : M W (CronJob.t * bool) :=
  let different := false in
  (* Check schedule *)
  '(current, different) <-
    (if negb (String.eqb (CronJobSpec.Schedule (CronJob.Spec current))
                (CronJobSpec.Schedule (CronJob.Spec desired)))
     then
       _ <- logInfo "Invalid Curator schedule found, updating %q"
              [ObjectMeta.Name (CronJob.Meta current)] ;;
       ret (set_Schedule current (CronJobSpec.Schedule (CronJob.Spec desired)), true)
     else ret (current, different)) ;;
  (* Check suspended *)
  '(current, different) <-
    (match CronJobSpec.Suspend (CronJob.Spec current),
           CronJobSpec.Suspend (CronJob.Spec desired) with
     | Some c, Some d =>
         if negb (Bool.eqb c d) then
           _ <- logInfo "Invalid Curator suspend value found, updating %q"
                  [ObjectMeta.Name (CronJob.Meta current)] ;;
           ret (set_Suspend current (CronJobSpec.Suspend (CronJob.Spec desired)), true)
         else ret (current, different)
     | _, _ => ret (current, different)
     end) ;;
  c0 <- index0 (CronJob_Containers current) ;;
  d0 <- index0 (CronJob_Containers desired) ;;
  if negb (String.eqb (Container.Image c0) (Container.Image d0)) then
    _ <- logInfo "Curator image change found, updating %q"
           [ObjectMeta.Name (CronJob.Meta current)] ;;
    ret (set_Image0 current (Container.Image d0), true)
  else ret (current, different).

Definition updateCuratorIfRequired (desired : CronJob.t) : M W error :=
  let current := desired (* desired.DeepCopy() *) in
  '(err, current) <- sdk_GetCronJob current ;;
  match err with
  | Some e =>
      if IsNotFound e then
        (* the object doesn't exist -- it was likely culled *)
        ret None
      else ret (Some (Errorf "Failed to get Curator cronjob: " e))
  | None =>
      '(current, different) <- isCuratorDifferent current desired ;;
      if different then
        try sdk_Update (CronJobObj current) ;;
        ret None
      else ret None
  end.

Definition newCuratorCronJob (logging : ClusterLogging.t)
  (curatorName elasticsearchHost : string) : CronJob.t :=
  let resources :=
    match CurationSpec.Resources
            (ClusterLoggingSpec.Curation (ClusterLogging.Spec logging)) with
    | Some r => r
    | None =>
        ResourceRequirements.mk
          [("memory", defaultCuratorMemory)]
          [("memory", defaultCuratorMemory); ("cpu", defaultCuratorCpuRequest)]
    end in
  let curatorContainer := utils_Container "curator" "IfNotPresent" resources in
  let curatorContainer :=
    Container.mk (Container.Name curatorContainer) (Container.Image curatorContainer)
      (Container.ImagePullPolicy curatorContainer)
      (Container.Resources curatorContainer)
      [EnvVar.mk "K8S_HOST_URL" "https://kubernetes.default.svc.cluster.local";
       EnvVar.mk "ES_HOST" elasticsearchHost;
       EnvVar.mk "ES_PORT" "9200";
       EnvVar.mk "ES_CLIENT_CERT" "/etc/curator/keys/cert";
       EnvVar.mk "ES_CLIENT_KEY" "/etc/curator/keys/key";
       EnvVar.mk "ES_CA" "/etc/curator/keys/ca";
       EnvVar.mk "CURATOR_DEFAULT_DAYS" "30";
       EnvVar.mk "CURATOR_SCRIPT_LOG_LEVEL" "INFO";
       EnvVar.mk "CURATOR_LOG_LEVEL" "ERROR";
       EnvVar.mk "CURATOR_TIMEOUT" "300"]
      [VolumeMount.mk "certs" true "/etc/curator/keys";
       VolumeMount.mk "config" true "/etc/curator/settings"] in
  let curatorPodSpec :=
    utils_PodSpec "curator" [curatorContainer]
      [Volume.mk "config" (Volume.ConfigMapSource "curator");
       Volume.mk "certs" (Volume.SecretSource "curator")] in
  let curatorPodSpec :=
    PodSpec.mk (PodSpec.Containers curatorPodSpec) (PodSpec.Volumes curatorPodSpec)
      (PodSpec.ServiceAccountName curatorPodSpec)
      "Never" (utils_GetInt64 600) in
  let schedule :=
    CuratorSpec.Schedule
      (CurationSpec.CuratorSpec
         (ClusterLoggingSpec.Curation (ClusterLogging.Spec logging))) in
  let schedule := if String.eqb schedule "" then defaultSchedule else schedule in
  let curatorCronJob :=
    utils_CronJob curatorName (cluster_Namespace logging) "curator" curatorName
      (CronJobSpec.mk schedule None (utils_GetInt32 1) (utils_GetInt32 1)
         (JobTemplateSpec.mk
            (JobSpec.mk (utils_GetInt32 0) (utils_GetInt32 1)
               (PodTemplateSpec.mk
                  (ObjectMeta.mk curatorName (cluster_Namespace logging) "" ""
                     [("provider", "openshift"); ("component", curatorName);
                      ("logging-infra", "curator")] [])
                  curatorPodSpec)))) in
  ownedCronJob curatorCronJob (utils_AsOwner logging).

(** [retry.RetryOnConflict(retry.DefaultRetry, func() error { return fn })]
    for a closure that keeps nothing between attempts. *)
Definition retrying (fn : M W error) : M W error :=
  '(retryErr, _) <-
    RetryOnConflict DefaultRetry (fun u : unit => err <- fn ;; ret (err, u)) tt ;;
  ret retryErr.

Definition isManaged (cluster : ClusterLogging.t) : bool :=
  String.eqb (ClusterLoggingSpec.ManagementState (ClusterLogging.Spec cluster))
    ManagementStateManaged.

Definition createOrUpdateCuratorCronJob (cluster : ClusterLogging.t) : M W error :=
  if AllInOne cluster then
    let curatorCronJob := newCuratorCronJob cluster "curator" "elasticsearch" in
    err <- sdk_Create (CronJobObj curatorCronJob) ;;
    match createFailure err with
    | Some e => ret (Some (Errorf "Failure constructing Curator cronjob: " e))
    | None =>
        try (if isManaged cluster
             then retrying (updateCuratorIfRequired curatorCronJob)
             else ret None) ;;
        ret None
    end
  else
    let curatorCronJob := newCuratorCronJob cluster "curator-app" "elasticsearch-app" in
    err <- sdk_Create (CronJobObj curatorCronJob) ;;
    match createFailure err with
    | Some e => ret (Some (Errorf "Failure constructing Curator App cronjob: " e))
    | None =>
        try (if isManaged cluster
             then retrying (updateCuratorIfRequired curatorCronJob)
             else ret None) ;;
        let curatorInfraCronJob :=
          newCuratorCronJob cluster "curator-infra" "elasticsearch-infra" in
        err <- sdk_Create (CronJobObj curatorInfraCronJob) ;;
        match createFailure err with
        | Some e => ret (Some (Errorf "Failure constructing Curator Infra cronjob: " e))
        | None =>
            try (if isManaged cluster
                 then retrying (updateCuratorIfRequired curatorInfraCronJob)
                 else ret None) ;;
            ret None
        end
    end.

Definition createOrUpdateCuratorServiceAccount (logging : ClusterLogging.t)
  : M W error :=
  let curatorServiceAccount :=
    ServiceAccountObj (utils_ServiceAccount "curator" (cluster_Namespace logging)) in
  let curatorServiceAccount :=
    utils_AddOwnerRefToObject curatorServiceAccount (utils_AsOwner logging) in
  err <- sdk_Create curatorServiceAccount ;;
  match createFailure err with
  | Some e => ret (Some (Errorf "Failure creating Curator service account: " e))
  | None => ret None
  end.

Definition createOrUpdateCuratorConfigMap (logging : ClusterLogging.t)
  : M W error :=
  let curatorConfigMap :=
    ConfigMapObj
      (utils_ConfigMap "curator" (cluster_Namespace logging)
         [("actions.yaml", GetFileContents "files/curator-actions.yaml");
          ("curator5.yaml", GetFileContents "files/curator5-config.yaml");
          ("config.yaml", GetFileContents "files/curator-config.yaml")]) in
  let curatorConfigMap :=
    utils_AddOwnerRefToObject curatorConfigMap (utils_AsOwner logging) in
  err <- sdk_Create curatorConfigMap ;;
  match createFailure err with
  | Some e => ret (Some (Errorf "Failure constructing Curator configmap: " e))
  | None => ret None
  end.

Definition createOrUpdateCuratorSecret (logging : ClusterLogging.t) : M W error :=
  let curatorSecret :=
    utils_Secret "curator" (cluster_Namespace logging)
      [("ca", GetWorkingDirFileContents "ca.crt");
       ("key", GetWorkingDirFileContents "system.logging.curator.key");
       ("cert", GetWorkingDirFileContents "system.logging.curator.crt");
       ("ops-ca", GetWorkingDirFileContents "ca.crt");
       ("ops-key", GetWorkingDirFileContents "system.logging.curator.key");
       ("ops-cert", GetWorkingDirFileContents "system.logging.curator.crt")] in
  let curatorSecret := ownedSecret curatorSecret (utils_AsOwner logging) in
  try utils_CreateOrUpdateSecret curatorSecret ;;
  ret None.

Definition removeCurator (cluster : ClusterLogging.t) : M W error :=
  if isManaged cluster then
    try utils_RemoveServiceAccount cluster "curator" ;;
    try utils_RemoveConfigMap cluster "curator" ;;
    try utils_RemoveSecret cluster "curator" ;;
    try utils_RemoveCronJob cluster "curator" ;;
    ret None
  else ret None.

(** The closure handed to [retry.RetryOnConflict] by [CreateOrUpdateCuration];
    [printUpdateMessage] is the variable it captures and clears. *)
Definition updateStatus (cluster : ClusterLogging.t)
  (curatorStatus : slice CuratorStatus.t) (printUpdateMessage : bool)
  : M W (error * bool) :=
  '(exists_, cluster) <- utils_DoesClusterLoggingExist cluster ;;
  if exists_ then
    if negb (DeepEqual curatorStatus (ClusterLogging.CuratorStatus cluster)) then
      printUpdateMessage <-
        (if printUpdateMessage then
           _ <- logInfo "Updating status of Curator" [] ;;
           ret false
         else ret printUpdateMessage) ;;
      let cluster := set_CuratorStatus cluster curatorStatus in
      err <- sdk_Update (ClusterLoggingObj cluster) ;;
      ret (err, printUpdateMessage)
    else ret (None, printUpdateMessage)
  else ret (None, printUpdateMessage).

Definition isCurator (cluster : ClusterLogging.t) : bool :=
  String.eqb
    (CurationSpec.Type_ (ClusterLoggingSpec.Curation (ClusterLogging.Spec cluster)))
    CurationTypeCurator.

Definition CreateOrUpdateCuration (cluster : ClusterLogging.t) : M W error :=
  if isCurator cluster then
    try createOrUpdateCuratorServiceAccount cluster ;;
    try createOrUpdateCuratorConfigMap cluster ;;
    try createOrUpdateCuratorCronJob cluster ;;
    try createOrUpdateCuratorSecret cluster ;;
    '(curatorStatus, err) <- getCuratorStatus (cluster_Namespace cluster) ;;
    match err with
    | Some e => ret (Some (Errorf "Failed to get status for Curator: " e))
    | None =>
        let printUpdateMessage := true in
        '(retryErr, _) <-
          RetryOnConflict DefaultRetry (updateStatus cluster curatorStatus)
            printUpdateMessage ;;
        match retryErr with
        | Some e =>
            ret (Some (Errorf "Failed to update Cluster Logging Curator status: " e))
        | None => ret None
        end
    end
  else
    _ <- removeCurator cluster ;;
    ret None.

End Curation.

(** ** An in-memory store

    A concrete world on which the reconciler runs: objects keyed by kind,
    namespace and name, with optimistic answers ("already exists", "not
    found") and two switches that make every delete or every get of one kind
    fail with a chosen error. *)

Module MemStore.

Record t := mk
  { objects : list Object;
    deleteFault : Kind -> error;
    getFault : Kind -> error;
    status : slice CuratorStatus.t }.

Definition hasKey (k : Kind) (namespace name : string) (o : Object) : bool :=
  Kind_eqb (kindOf o) k
  && String.eqb (ObjectMeta.Namespace (metaOf o)) namespace
  && String.eqb (ObjectMeta.Name (metaOf o)) name.

Definition sameKey (a b : Object) : bool :=
  hasKey (kindOf a) (ObjectMeta.Namespace (metaOf a)) (ObjectMeta.Name (metaOf a)) b.

Definition notFound : GoError := mkError StatusReasonNotFound "not found".
Definition alreadyExists : GoError := mkError StatusReasonAlreadyExists "already exists".

Definition withObjects (w : t) (os : list Object) : t :=
  mk os (deleteFault w) (getFault w) (status w).

Definition create (o : Object) (w : t) : error * t :=
  if existsb (sameKey o) (objects w) then (Some alreadyExists, w)
  else (None, withObjects w (objects w ++ [o])).

Definition update (o : Object) (w : t) : error * t :=
  if existsb (sameKey o) (objects w)
  then (None, withObjects w (map (fun x => if sameKey o x then o else x) (objects w)))
  else (Some notFound, w).

Definition delete (k : Kind) (namespace name : string) (w : t) : error * t :=
  match deleteFault w k with
  | Some e => (Some e, w)
  | None =>
      if existsb (hasKey k namespace name) (objects w)
      then (None, withObjects w
                    (filter (fun x => negb (hasKey k namespace name x)) (objects w)))
      else (Some notFound, w)
  end.

Definition getCronJob (into : CronJob.t) (w : t) : (error * CronJob.t) * t :=
  match getFault w KCronJob with
  | Some e => ((Some e, into), w)
  | None =>
      match find (sameKey (CronJobObj into)) (objects w) with
      | Some (CronJobObj j) => ((None, j), w)
      | _ => ((Some notFound, into), w)
      end
  end.

Definition getClusterLogging (into : ClusterLogging.t) (w : t)
  : (error * ClusterLogging.t) * t :=
  match getFault w KClusterLogging with
  | Some e => ((Some e, into), w)
  | None =>
      match find (sameKey (ClusterLoggingObj into)) (objects w) with
      | Some (ClusterLoggingObj c) => ((None, c), w)
      | _ => ((Some notFound, into), w)
      end
  end.

(** The environment over this store; [allInOne] is the topology every
    cluster is given. *)
Definition env (allInOne : bool) : Env t :=
  {| store_Create := create;
     store_GetCronJob := getCronJob;
     store_GetClusterLogging := getClusterLogging;
     store_Update := update;
     store_Delete := delete;
     collect_CuratorStatus := fun _ w => ((status w, None), w);
     AllInOne := fun _ => allInOne;
     GetFileContents := fun path => path;
     GetWorkingDirFileContents := fun _ => [];
     GetComponentImage := fun name => "logging-" ++ name ++ ":v1";
     defaultCuratorMemory := "256Mi";
     defaultCuratorCpuRequest := "100m" |}.

Definition noFault : Kind -> error := fun _ => None.

Definition empty : t := mk [] noFault noFault None.

End MemStore.

(** Sample clusters in namespace [openshift-logging]. *)
Definition sampleCluster (curationType managementState schedule : string)
  : ClusterLogging.t :=
  ClusterLogging.mk
    (ObjectMeta.mk "instance" "openshift-logging" "uid-1" "1" [] [])
    (ClusterLoggingSpec.mk managementState
       (CurationSpec.mk curationType None (CuratorSpec.mk schedule)))
    None.

Definition enabledManaged : ClusterLogging.t := sampleCluster "curator" "Managed" "".
Definition enabledUnmanaged : ClusterLogging.t := sampleCluster "curator" "Unmanaged" "".
Definition disabledManaged : ClusterLogging.t := sampleCluster "" "Managed" "".
Definition disabledUnmanaged : ClusterLogging.t := sampleCluster "" "Unmanaged" "".

(** * Vocabulary of the properties *)

(** Every call the computation issues, from any world, satisfies [P]. *)
Definition emits {W A : Type} (P : Call -> bool) (m : M W A) : Prop :=
  forall w, Forall (fun c => P c = true) (calls (m w)).

(** ** The diff policy in the spec's words *)

Definition scheduleDiffers (live desired : CronJob.t) : bool :=
  negb (String.eqb (CronJobSpec.Schedule (CronJob.Spec live))
          (CronJobSpec.Schedule (CronJob.Spec desired))).

(** Compared only when both values are present. *)
Definition suspendDiffers (live desired : CronJob.t) : bool :=
  match CronJobSpec.Suspend (CronJob.Spec live),
        CronJobSpec.Suspend (CronJob.Spec desired) with
  | Some a, Some b => negb (Bool.eqb a b)
  | _, _ => false
  end.

Definition imageDiffers (c0 d0 : Container.t) : bool :=
  negb (String.eqb (Container.Image c0) (Container.Image d0)).

(** The live job with the differing monitored fields overwritten. *)
Definition patchOf (live desired : CronJob.t) (c0 d0 : Container.t) : CronJob.t :=
  let j := if scheduleDiffers live desired
           then set_Schedule live (CronJobSpec.Schedule (CronJob.Spec desired))
           else live in
  let j := if suspendDiffers live desired
           then set_Suspend j (CronJobSpec.Suspend (CronJob.Spec desired))
           else j in
  if imageDiffers c0 d0 then set_Image0 j (Container.Image d0) else j.

Definition isLog (c : Call) : bool :=
  match c with LogInfo _ _ => true | _ => false end.

(** ** Which calls a step may issue *)

Definition createsKind (k : Kind) (c : Call) : bool :=
  match c with
  | CallCreate o => Kind_eqb (kindOf o) k
  | _ => false
  end.

(** A call of the scheduled-job step: create, get or update of a cron job,
    or a log line. *)
Definition jobStep (c : Call) : bool :=
  match c with
  | CallCreate o | CallGet o | CallUpdate o => Kind_eqb (kindOf o) KCronJob
  | LogInfo _ _ => true
  | _ => false
  end.

(** A call of the status step: collecting the status, get or update of the
    ClusterLogging instance, or a log line. *)
Definition statusStep (c : Call) : bool :=
  match c with
  | CallGetCuratorStatus _ => true
  | CallGet o | CallUpdate o => Kind_eqb (kindOf o) KClusterLogging
  | LogInfo _ _ => true
  | _ => false
  end.

Definition isDelete (c : Call) : bool :=
  match c with CallDelete _ _ _ => true | _ => false end.

Definition isStatic (k : Kind) : bool :=
  match k with
  | KServiceAccount | KConfigMap | KSecret => true
  | _ => false
  end.

(** A Get or an Update of an identity, configuration bundle or credential
    bundle. *)
Definition readsOrUpdatesStatic (c : Call) : bool :=
  match c with
  | CallGet o | CallUpdate o => isStatic (kindOf o)
  | _ => false
  end.

(** A Get or an Update of a cron job, or any Delete. *)
Definition patchesOrDeletes (c : Call) : bool :=
  match c with
  | CallGet o | CallUpdate o => Kind_eqb (kindOf o) KCronJob
  | CallDelete _ _ _ => true
  | _ => false
  end.

(** A run in stages: its calls are the concatenation of one block per stage,
    each block within its stage's predicate, and every block is non-empty
    when the run is a success. *)
Definition StagedRun (Ps : list (Call -> bool)) (t : list Call) (ok : Prop) : Prop :=
  exists bs,
    t = concat bs /\
    Forall2 (fun P b => Forall (fun c => P c = true) b) Ps bs /\
    (ok -> Forall (fun b => b <> []) bs).

(** ** Sample jobs and stores *)

Definition combinedTopology : Env MemStore.t := MemStore.env true.
Definition splitTopology : Env MemStore.t := MemStore.env false.

Definition sampleContainer (image : string) : Container.t :=
  Container.mk "curator" image "IfNotPresent" (ResourceRequirements.mk [] []) [] [].

Definition sampleJob (name schedule : string) (suspend : option bool)
  (images : list string) : CronJob.t :=
  CronJob.mk
    (ObjectMeta.mk name "openshift-logging" "" "" [] [])
    (CronJobSpec.mk schedule suspend (Some 1%Z) (Some 1%Z)
       (JobTemplateSpec.mk
          (JobSpec.mk (Some 0%Z) (Some 1%Z)
             (PodTemplateSpec.mk
                (ObjectMeta.mk name "openshift-logging" "" "" [] [])
                (PodSpec.mk (map sampleContainer images) [] "curator" "Never"
                   (Some 600%Z)))))).

Definition liveJob : CronJob.t :=
  sampleJob "curator" "0 0 * * *" None ["logging-curator:v1"].
Definition desiredJob : CronJob.t :=
  sampleJob "curator" defaultSchedule None ["logging-curator:v2"].
Definition emptyJob : CronJob.t :=
  sampleJob "curator" defaultSchedule None [].

Definition storeWith (objects : list Object) : MemStore.t :=
  MemStore.mk objects MemStore.noFault MemStore.noFault None.

Definition connectionRefused : GoError :=
  mkError StatusReasonUnknown "connection refused".

(** A store whose deletes of service accounts fail with an unclassified
    error. *)
Definition storeRefusingDeletes : MemStore.t :=
  MemStore.mk []
    (fun k => match k with KServiceAccount => Some connectionRefused | _ => None end)
    MemStore.noFault None.

(** A store whose gets of cron jobs fail with an unclassified error. *)
Definition storeRefusingGets : MemStore.t :=
  MemStore.mk [] MemStore.noFault
    (fun k => match k with KCronJob => Some connectionRefused | _ => None end)
    None.

(** The store left by an enabled, fully-managed reconciliation in split
    topology. *)
Definition storeAfterSplitReconcile : MemStore.t :=
  world (@CreateOrUpdateCuration _ splitTopology enabledManaged MemStore.empty).

(** A call on a cron job proper, log lines apart. *)
Definition jobCall (c : Call) : bool :=
  match c with
  | CallCreate o | CallGet o | CallUpdate o => Kind_eqb (kindOf o) KCronJob
  | _ => false
  end.

Definition createsStatic (c : Call) : bool :=
  match c with
  | CallCreate o => isStatic (kindOf o)
  | _ => false
  end.

(** No static resource is created once a cron job has been touched. *)
Fixpoint staticsBeforeJobs (t : list Call) : bool :=
  match t with
  | [] => true
  | c :: t' =>
      (if jobCall c then negb (existsb createsStatic t') else true)
      && staticsBeforeJobs t'
  end.

(** ** Counting calls, and the log lines of the diff *)

Definition countCalls (P : Call -> bool) (t : list Call) : nat :=
  length (filter P t).

Definition isClusterGet (c : Call) : bool :=
  match c with CallGet (ClusterLoggingObj _) => true | _ => false end.
Definition isClusterUpdate (c : Call) : bool :=
  match c with CallUpdate (ClusterLoggingObj _) => true | _ => false end.
Definition isStatusCollect (c : Call) : bool :=
  match c with CallGetCuratorStatus _ => true | _ => false end.

(** The line [logrus.Info("Updating status of Curator")]. *)
Definition isUpdateNotice (c : Call) : bool :=
  match c with
  | LogInfo format _ => String.eqb format "Updating status of Curator"
  | _ => false
  end.

(** One log line per differing monitored field, naming the live job. *)
Definition diffNotices (live desired : CronJob.t) : list Call :=
  let name := ObjectMeta.Name (CronJob.Meta live) in
  ((if scheduleDiffers live desired
    then [LogInfo "Invalid Curator schedule found, updating %q" [name]] else [])
   ++ (if suspendDiffers live desired
       then [LogInfo "Invalid Curator suspend value found, updating %q" [name]]
       else [])
   ++ match CronJob_Containers live, CronJob_Containers desired with
      | c0 :: _, d0 :: _ =>
          if imageDiffers c0 d0
          then [LogInfo "Curator image change found, updating %q" [name]] else []
      | _, _ => []
      end)%list.

(** The first container's image, when there is a first container. *)
Definition firstImage (j : CronJob.t) : option string :=
  match CronJob_Containers j with
  | [] => None
  | c :: _ => Some (Container.Image c)
  end.

(** The cron jobs the scheduled-job step wants for a cluster. *)
Definition desiredJobs {W : Type} {EnvW : Env W} (cluster : ClusterLogging.t)
  : list CronJob.t :=
  if AllInOne cluster
  then [newCuratorCronJob cluster "curator" "elasticsearch"]
  else [newCuratorCronJob cluster "curator-app" "elasticsearch-app";
        newCuratorCronJob cluster "curator-infra" "elasticsearch-infra"].

(** A store holding the desired job as it is. *)
Definition storeInSync : MemStore.t := storeWith [CronJobObj desiredJob].

(** At most [n] calls satisfying [P], from any world. *)
Definition bounded {W A : Type} (P : Call -> bool) (n : nat) (m : M W A) : Prop :=
  forall w, countCalls P (calls (m w)) <= n.

(** Every call the computation issues, from any world, has property [P]. *)
Definition issues {W A : Type} (P : Call -> Prop) (m : M W A) : Prop :=
  forall w, Forall P (calls (m w)).

(** A Create or a Get aimed at one of [jobs]; other calls are not
    constrained. *)
Definition targets (jobs : list CronJob.t) (c : Call) : Prop :=
  match c with
  | CallCreate o | CallGet o => exists j, In j jobs /\ o = CronJobObj j
  | _ => True
  end.

(** The in-memory store behind a client whose Create of the kinds picked by
    [refuse] fails with an unclassified error. *)
Definition refusingCreates (refuse : Kind -> bool) : Env MemStore.t :=
  {| store_Create :=
       fun o w => if refuse (kindOf o) then (Some connectionRefused, w)
                  else MemStore.create o w;
     store_GetCronJob := MemStore.getCronJob;
     store_GetClusterLogging := MemStore.getClusterLogging;
     store_Update := MemStore.update;
     store_Delete := MemStore.delete;
     collect_CuratorStatus := fun _ w => ((MemStore.status w, None), w);
     AllInOne := fun _ => true;
     GetFileContents := fun path => path;
     GetWorkingDirFileContents := fun _ => [];
     GetComponentImage := fun name => "logging-" ++ name ++ ":v1";
     defaultCuratorMemory := "256Mi";
     defaultCuratorCpuRequest := "100m" |}.

Definition refusingCronJobs : Env MemStore.t :=
  refusingCreates (fun k => Kind_eqb k KCronJob).
Definition refusingServiceAccounts : Env MemStore.t :=
  refusingCreates (fun k => Kind_eqb k KServiceAccount).

(** The job the combined topology wants for the sample cluster, and the
    live job once its schedule is corrected. *)
Definition sampleDesired : CronJob.t :=
  @newCuratorCronJob _ combinedTopology enabledManaged "curator" "elasticsearch".
Definition liveJobRescheduled : CronJob.t := set_Schedule liveJob defaultSchedule.
Definition liveJobPatched : CronJob.t :=
  set_Image0 (set_Schedule liveJob defaultSchedule) "logging-curator:v2".

(** * Properties *)

Arguments CronJob_Containers : simpl never.
Arguments isCuratorDifferent : simpl never.
Arguments updateCuratorIfRequired : simpl never.

(** ** Calls of composed computations *)

Section Facts.

Context {W : Type} {EnvW : Env W}.

Lemma bind_calls A B (m : M W A) (f : A -> M W B) (w : W) :
  calls (bind m f w)
  = (calls (m w)
     ++ match res (m w) with
        | Returned a => calls (f a (world (m w)))
        | Panicked => []
        end)%list.
Proof.
  unfold bind. destruct (res (m w)); simpl.
  - reflexivity.
  - now rewrite app_nil_r.
Qed.

Lemma emits_ret A (P : Call -> bool) (a : A) : emits (W:=W) P (ret a).
Proof. intro w. constructor. Qed.

Lemma emits_panic A (P : Call -> bool) : emits (W:=W) P (@panic W A).
Proof. intro w. constructor. Qed.

Lemma emits_bind A B (P : Call -> bool) (m : M W A) (f : A -> M W B) :
  emits P m -> (forall a, emits (W:=W) P (f a)) -> emits (W:=W) P (bind m f).
Proof.
  intros Hm Hf w. rewrite bind_calls. apply Forall_app. split.
  - apply Hm.
  - destruct (res (m w)); [apply Hf | constructor].
Qed.

Lemma emits_perform A (P : Call -> bool) (c : Call) (step : W -> A * W) :
  P c = true -> emits (W:=W) P (perform c step).
Proof.
  intros Hc w. unfold perform. destruct (step w). simpl. now repeat constructor.
Qed.

Lemma emits_logInfo (P : Call -> bool) format args :
  P (LogInfo format args) = true -> emits (W:=W) P (@logInfo W format args).
Proof. intros Hc w. simpl. now repeat constructor. Qed.

Lemma emits_retryLoop S (P : Call -> bool) (fn : S -> M W (error * S)) :
  (forall s, emits P (fn s)) ->
  forall steps s lastConflictErr, emits (W:=W) P (retryLoop steps fn s lastConflictErr).
Proof.
  intros Hfn steps. induction steps as [|n IH]; intros s lastErr; simpl.
  - apply emits_ret.
  - apply emits_bind; [apply Hfn|].
    intros [[e|] s'].
    + destruct (IsConflict e); [apply IH | apply emits_ret].
    + apply emits_ret.
Qed.

(** An attempt that fails with anything but a conflict ends the loop. *)
Lemma retryLoop_fatal S (n : nat) (fn : S -> M W (error * S)) (s s' : S)
  (lastConflictErr : error) (w w1 : W) (e : GoError) (c : list Call) :
  fn s w = mkOut (Returned (Some e, s')) w1 c ->
  IsConflict e = false ->
  retryLoop (Datatypes.S n) fn s lastConflictErr w
  = mkOut (Returned (Some e, s')) w1 c.
Proof.
  intros Hfn Hc. cbn [retryLoop]. unfold bind. rewrite Hfn. cbn.
  rewrite Hc. cbn. rewrite app_nil_r. reflexivity.
Qed.

Lemma emits_weaken A (P Q : Call -> bool) (m : M W A) :
  (forall c, P c = true -> Q c = true) -> emits P m -> emits Q m.
Proof. intros HPQ Hm w. eapply Forall_impl; [|apply Hm]. exact HPQ. Qed.

End Facts.

(** Decompose a computation into its calls, branch by branch. *)
Ltac emits_step :=
  first
    [ apply emits_ret
    | apply emits_panic
    | apply emits_perform; reflexivity
    | apply emits_logInfo; reflexivity
    | apply emits_bind; [|intros ?]
    | match goal with
      | |- emits _ (match ?x with _ => _ end) => destruct x
      | |- emits _ (let '_ := ?x in _) => destruct x
      end ].
Ltac emits_all := repeat emits_step.

Section Diff.

Context {W : Type} {EnvW : Env W}.

Lemma Containers_set_Schedule j s :
  CronJob_Containers (set_Schedule j s) = CronJob_Containers j.
Proof. reflexivity. Qed.

Lemma Containers_set_Suspend j p :
  CronJob_Containers (set_Suspend j p) = CronJob_Containers j.
Proof. reflexivity. Qed.

(** [isCuratorDifferent] run from any world: it only logs, leaves the world
    alone, panics exactly on an empty container list, and otherwise returns
    the patched live job with the flag of the diff policy. *)
Lemma isCuratorDifferent_run (current desired : CronJob.t) (w : W) :
  exists logs,
    Forall (fun c => isLog c = true) logs /\
    isCuratorDifferent current desired w
    = mkOut
        match CronJob_Containers current, CronJob_Containers desired with
        | c0 :: _, d0 :: _ =>
            Returned (patchOf current desired c0 d0,
                      scheduleDiffers current desired
                      || suspendDiffers current desired
                      || imageDiffers c0 d0)
        | _, _ => Panicked
        end w logs.
Proof.
  unfold isCuratorDifferent, patchOf, scheduleDiffers, suspendDiffers, imageDiffers.
  destruct (String.eqb (CronJobSpec.Schedule (CronJob.Spec current))
              (CronJobSpec.Schedule (CronJob.Spec desired))) eqn:Es;
    destruct (CronJobSpec.Suspend (CronJob.Spec current)) as [[|]|] eqn:Ec;
    destruct (CronJobSpec.Suspend (CronJob.Spec desired)) as [[|]|] eqn:Ed;
    unfold bind, index0, logInfo, ret, panic; cbn;
    rewrite ?Ec, ?Ed; cbn;
    rewrite ?Containers_set_Suspend, ?Containers_set_Schedule;
    destruct (CronJob_Containers current) as [|c0 cs] eqn:Ecs; cbn.
  all: try (eexists; split; [|reflexivity]; solve [repeat constructor]).
  all: destruct (CronJob_Containers desired) as [|d0 ds] eqn:Eds; cbn.
  all: try (eexists; split; [|reflexivity]; solve [repeat constructor]).
  all: destruct (String.eqb (Container.Image c0) (Container.Image d0)); cbn.
  all: eexists; split; [|reflexivity]; solve [repeat constructor].
Qed.

(** Writing a field with the value it already holds changes nothing. *)
Lemma set_Schedule_same j :
  set_Schedule j (CronJobSpec.Schedule (CronJob.Spec j)) = j.
Proof. destruct j as [m []]. reflexivity. Qed.

Lemma set_Suspend_same j :
  set_Suspend j (CronJobSpec.Suspend (CronJob.Spec j)) = j.
Proof. destruct j as [m []]. reflexivity. Qed.

Lemma set_Image0_same j c0 cs :
  CronJob_Containers j = c0 :: cs -> set_Image0 j (Container.Image c0) = j.
Proof.
  unfold set_Image0. intros E. rewrite E. revert E.
  destruct j as [m [s p a b [[bl pl [pm [l v sa rp tg]]]]]].
  unfold CronJob_Containers, set_Containers. cbn. intros ->.
  destruct c0. reflexivity.
Qed.

(** [updateCuratorIfRequired] when the fetch fails. *)
Lemma updateCuratorIfRequired_get_failed desired w e current w1 :
  store_GetCronJob desired w = ((Some e, current), w1) ->
  updateCuratorIfRequired desired w
  = mkOut (Returned (if IsNotFound e then None
                     else Some (Errorf "Failed to get Curator cronjob: " e)))
      w1 [CallGet (CronJobObj desired)].
Proof.
  intros Hget. unfold updateCuratorIfRequired, bind, sdk_GetCronJob, perform.
  rewrite Hget. cbn. destruct (IsNotFound e); reflexivity.
Qed.

(** [updateCuratorIfRequired] when the fetch succeeds with [live]. *)
Lemma updateCuratorIfRequired_found desired w live w1 :
  store_GetCronJob desired w = ((None, live), w1) ->
  exists logs,
    Forall (fun c => isLog c = true) logs /\
    updateCuratorIfRequired desired w
    = match CronJob_Containers live, CronJob_Containers desired with
      | c0 :: _, d0 :: _ =>
          if scheduleDiffers live desired || suspendDiffers live desired
             || imageDiffers c0 d0
          then
            let patched := CronJobObj (patchOf live desired c0 d0) in
            mkOut (Returned (fst (store_Update patched w1)))
              (snd (store_Update patched w1))
              (CallGet (CronJobObj desired) :: logs ++ [CallUpdate patched])
          else mkOut (Returned None) w1 (CallGet (CronJobObj desired) :: logs)
      | _, _ => mkOut Panicked w1 (CallGet (CronJobObj desired) :: logs)
      end.
Proof.
  intros Hget.
  destruct (isCuratorDifferent_run live desired w1) as [logs [Hlogs Erun]].
  exists logs. split; [exact Hlogs|].
  unfold updateCuratorIfRequired, sdk_GetCronJob, perform, bind.
  rewrite Hget. cbn. rewrite Erun. clear Erun. cbn.
  destruct (CronJob_Containers live) as [|c0 cs]; [reflexivity|].
  destruct (CronJob_Containers desired) as [|d0 ds]; [reflexivity|].
  cbn.
  destruct (scheduleDiffers live desired || suspendDiffers live desired
            || imageDiffers c0 d0); cbn.
  - unfold bind, sdk_Update, perform.
    destruct (store_Update (CronJobObj (patchOf live desired c0 d0)) w1)
      as [[e|] w2]; cbn; rewrite ?app_nil_r; reflexivity.
  - rewrite app_nil_r. reflexivity.
Qed.

(** C5.  On live and desired jobs that each have a first container,
    [isCuratorDifferent] returns, and its flag is true exactly when the
    schedule strings are unequal, or both suspended flags are present and
    unequal, or the first containers' image strings are unequal; no other
    field enters the flag. *)
Theorem isCuratorDifferent_changed_iff
  (current desired : CronJob.t) (w : W) (c0 d0 : Container.t)
  (cs ds : list Container.t) :
  CronJob_Containers current = c0 :: cs ->
  CronJob_Containers desired = d0 :: ds ->
  exists patched different,
    res (isCuratorDifferent current desired w) = Returned (patched, different) /\
    (different = true <->
     CronJobSpec.Schedule (CronJob.Spec current)
       <> CronJobSpec.Schedule (CronJob.Spec desired)
     \/ (exists a b,
           CronJobSpec.Suspend (CronJob.Spec current) = Some a /\
           CronJobSpec.Suspend (CronJob.Spec desired) = Some b /\ a <> b)
     \/ Container.Image c0 <> Container.Image d0).
Proof.
  intros Hc Hd.
  destruct (isCuratorDifferent_run current desired w) as [logs [_ Erun]].
  rewrite Erun, Hc, Hd. cbn.
  eexists. eexists. split; [reflexivity|].
  unfold scheduleDiffers, suspendDiffers, imageDiffers.
  rewrite !orb_true_iff, !negb_true_iff, !String.eqb_neq.
  split.
  - intros [[Hs | Hp] | Hi]; [left; exact Hs | right; left | right; right; exact Hi].
    destruct (CronJobSpec.Suspend (CronJob.Spec current)) as [a|]; [|discriminate].
    destruct (CronJobSpec.Suspend (CronJob.Spec desired)) as [b|]; [|discriminate].
    exists a, b. repeat split.
    apply negb_true_iff in Hp. now apply eqb_false_iff in Hp.
  - intros [Hs | [(a & b & Ea & Eb & Hab) | Hi]];
      [left; left; exact Hs | left; right | right; exact Hi].
    rewrite Ea, Eb. apply negb_true_iff. now apply eqb_false_iff.
Qed.

(** C10.  [isCuratorDifferent] panics exactly when the live or the desired
    job has no container, since it indexes the first container of both
    without a length check; and a live job fetched from the store with no
    container makes [updateCuratorIfRequired] panic. *)
Theorem isCuratorDifferent_panics_iff
  (current desired : CronJob.t) (w : W) :
  (res (isCuratorDifferent current desired w) = Panicked <->
   CronJob_Containers current = [] \/ CronJob_Containers desired = [])
  /\ (forall live w1,
        store_GetCronJob desired w = ((None, live), w1) ->
        CronJob_Containers live = [] ->
        res (updateCuratorIfRequired desired w) = Panicked).
Proof.
  split.
  - destruct (isCuratorDifferent_run current desired w) as [logs [_ Erun]].
    rewrite Erun. cbn.
    destruct (CronJob_Containers current) as [|c0 cs];
      destruct (CronJob_Containers desired) as [|d0 ds]; split;
      try (intros _; auto; reflexivity); try discriminate.
    intros [|]; discriminate.
  - intros live w1 Hget Hnone.
    destruct (updateCuratorIfRequired_found _ _ Hget) as [logs [_ Erun]].
    rewrite Erun, Hnone. reflexivity.
Qed.

(** C6.  Every Update issued by [updateCuratorIfRequired] submits the job
    just fetched from the store with at most its schedule, its suspended
    flag and its first container's image overwritten; its metadata, hence
    name and namespace, is that of the fetched job. *)
Theorem update_overwrites_only_monitored_fields
  (desired : CronJob.t) (w : W) (o : Object) :
  In (CallUpdate o) (calls (updateCuratorIfRequired desired w)) ->
  exists live w1 schedule suspend image,
    store_GetCronJob desired w = ((None, live), w1) /\
    o = CronJobObj (set_Image0 (set_Suspend (set_Schedule live schedule) suspend) image) /\
    ObjectMeta.Name (metaOf o) = ObjectMeta.Name (CronJob.Meta live) /\
    ObjectMeta.Namespace (metaOf o) = ObjectMeta.Namespace (CronJob.Meta live) /\
    metaOf o = CronJob.Meta live.
Proof.
  destruct (store_GetCronJob desired w) as [[[e|] live] w1] eqn:Hget.
  - rewrite (updateCuratorIfRequired_get_failed _ _ Hget). cbn.
    intros [|[]]; discriminate.
  - destruct (updateCuratorIfRequired_found _ _ Hget) as [logs [Hlogs Erun]].
    rewrite Erun. clear Erun.
    assert (Hnolog : ~ In (CallUpdate o) logs).
    { intros Hin. rewrite Forall_forall in Hlogs. specialize (Hlogs _ Hin).
      discriminate. }
    destruct (CronJob_Containers live) as [|c0 cs] eqn:Hc;
      [cbn; intros [|]; [discriminate | contradiction]|].
    destruct (CronJob_Containers desired) as [|d0 ds] eqn:Hd;
      [cbn; intros [|]; [discriminate | contradiction]|].
    destruct (scheduleDiffers live desired || suspendDiffers live desired
              || imageDiffers c0 d0);
      [|cbn; intros [|]; [discriminate | contradiction]].
    cbn. intros [|Hin]; [discriminate|].
    apply in_app_or in Hin. destruct Hin as [|[Ho|[]]]; [contradiction|].
    injection Ho as <-.
    exists live, w1.
    exists (if scheduleDiffers live desired
            then CronJobSpec.Schedule (CronJob.Spec desired)
            else CronJobSpec.Schedule (CronJob.Spec live)).
    exists (if suspendDiffers live desired
            then CronJobSpec.Suspend (CronJob.Spec desired)
            else CronJobSpec.Suspend (CronJob.Spec live)).
    exists (if imageDiffers c0 d0 then Container.Image d0 else Container.Image c0).
    split; [reflexivity|].
    assert (Epatch :
      patchOf live desired c0 d0
      = set_Image0
          (set_Suspend
             (set_Schedule live
                (if scheduleDiffers live desired
                 then CronJobSpec.Schedule (CronJob.Spec desired)
                 else CronJobSpec.Schedule (CronJob.Spec live)))
             (if suspendDiffers live desired
              then CronJobSpec.Suspend (CronJob.Spec desired)
              else CronJobSpec.Suspend (CronJob.Spec live)))
          (if imageDiffers c0 d0 then Container.Image d0 else Container.Image c0)).
    { unfold patchOf.
      destruct (scheduleDiffers live desired); destruct (suspendDiffers live desired);
        destruct (imageDiffers c0 d0);
        rewrite ?set_Schedule_same; try reflexivity.
      all: try (erewrite set_Image0_same; [reflexivity|]; cbn; eassumption).
      all: try (rewrite (set_Suspend_same (set_Schedule live _)) || rewrite set_Suspend_same);
        try reflexivity.
      all: try (erewrite set_Image0_same; [reflexivity|]; cbn; eassumption).
    }
    rewrite Epatch. split; [reflexivity|].
    unfold set_Image0. rewrite Containers_set_Suspend, Containers_set_Schedule, Hc.
    repeat split.
Qed.

(** C7.  When the fetch of the live job fails, [updateCuratorIfRequired]
    issues that one Get and no Update: on "not found" it returns nil, on any
    other error it returns a non-nil error built from it, which the
    surrounding retry loop hands back after that single attempt. *)
Theorem updateCuratorIfRequired_get_error
  (desired : CronJob.t) (w : W) (e : GoError) (current : CronJob.t) (w1 : W) :
  store_GetCronJob desired w = ((Some e, current), w1) ->
  calls (updateCuratorIfRequired desired w) = [CallGet (CronJobObj desired)]
  /\ (IsNotFound e = true ->
      res (updateCuratorIfRequired desired w) = Returned None)
  /\ (IsNotFound e = false ->
      res (updateCuratorIfRequired desired w)
      = Returned (Some (Errorf "Failed to get Curator cronjob: " e))
      /\ retrying (updateCuratorIfRequired desired) w
         = mkOut (Returned (Some (Errorf "Failed to get Curator cronjob: " e)))
             w1 [CallGet (CronJobObj desired)]).
Proof.
  intros Hget. pose proof (updateCuratorIfRequired_get_failed _ _ Hget) as Hrun.
  rewrite Hrun. cbn.
  split; [reflexivity|]. split; [intros ->; reflexivity|].
  intros Hnf. rewrite Hnf in *. split; [reflexivity|].
  unfold retrying, RetryOnConflict. unfold bind at 1.
  change (Steps DefaultRetry) with (Datatypes.S 4).
  rewrite (@retryLoop_fatal _ unit 4 _ tt tt None w w1
             (Errorf "Failed to get Curator cronjob: " e)
             [CallGet (CronJobObj desired)]);
    [ reflexivity
    | unfold bind; rewrite Hrun; reflexivity
    | reflexivity ].
Qed.

End Diff.

Lemma DeepEqual_true_iff (a b : slice CuratorStatus.t) :
  DeepEqual a b = true <-> a = b.
Proof.
  assert (Helt : forall x y, CuratorStatus_eqb x y = true <-> x = y).
  { intros [c s u] [c' s' u']. unfold CuratorStatus_eqb. cbn.
    rewrite !andb_true_iff, !String.eqb_eq, Bool.eqb_true_iff.
    split; [intros [[-> ->] ->]; reflexivity | intros [= -> -> ->]; auto]. }
  assert (Hlist : forall x y, elementsDeepEqual x y = true <-> x = y).
  { induction x as [|x0 x IH]; intros [|y0 y]; cbn;
      try (split; [discriminate | discriminate]); [tauto|].
    rewrite andb_true_iff, Helt, IH.
    split; [intros [-> ->]; reflexivity | intros [= -> ->]; auto]. }
  destruct a as [x|], b as [y|]; cbn; try (split; discriminate); [|tauto].
  rewrite Hlist. split; [intros ->; reflexivity | intros [= ->]; reflexivity].
Qed.

Section Reconcile.

Context {W : Type} {EnvW : Env W}.

Lemma perform_calls A (c : Call) (step : W -> A * W) (w : W) :
  calls (perform c step w) = [c].
Proof. unfold perform. destruct (step w). reflexivity. Qed.

Lemma isCuratorDifferent_emits (P : Call -> bool) current desired :
  (forall c, isLog c = true -> P c = true) ->
  emits (W:=W) P (isCuratorDifferent current desired).
Proof.
  intros HP w.
  destruct (isCuratorDifferent_run current desired w) as [logs [Hlogs Erun]].
  rewrite Erun. cbn. eapply Forall_impl; [|exact Hlogs]. exact HP.
Qed.

Lemma updateCuratorIfRequired_emits desired :
  emits (W:=W) jobStep (updateCuratorIfRequired desired).
Proof.
  unfold updateCuratorIfRequired, sdk_GetCronJob, sdk_Update.
  repeat first
    [ apply isCuratorDifferent_emits; intros []; cbn; congruence
    | emits_step ].
Qed.

Lemma retrying_emits (P : Call -> bool) (fn : M W error) :
  emits (W:=W) P fn -> emits P (retrying fn).
Proof.
  intros Hfn. unfold retrying, RetryOnConflict.
  apply emits_bind.
  - apply emits_retryLoop. intros u. apply emits_bind; [exact Hfn|].
    intros e. apply emits_ret.
  - intros [e u]. apply emits_ret.
Qed.

Lemma createOrUpdateCuratorCronJob_emits cluster :
  emits (W:=W) jobStep (createOrUpdateCuratorCronJob cluster).
Proof.
  unfold createOrUpdateCuratorCronJob, sdk_Create.
  repeat first
    [ apply retrying_emits; apply updateCuratorIfRequired_emits
    | emits_step ].
Qed.

(** Outside fully-managed mode the scheduled-job step only creates. *)
Lemma createOrUpdateCuratorCronJob_unmanaged cluster :
  isManaged cluster = false ->
  emits (createsKind KCronJob) (createOrUpdateCuratorCronJob cluster).
Proof.
  intros Hm. unfold createOrUpdateCuratorCronJob, sdk_Create. rewrite Hm.
  emits_all.
Qed.

Lemma createOrUpdateCuratorCronJob_calls_nonempty cluster w :
  calls (createOrUpdateCuratorCronJob cluster w) <> [].
Proof.
  unfold createOrUpdateCuratorCronJob, sdk_Create.
  destruct (AllInOne cluster); rewrite bind_calls, perform_calls; discriminate.
Qed.

Lemma createOrUpdateCuratorServiceAccount_calls logging w :
  exists o,
    kindOf o = KServiceAccount /\
    calls (createOrUpdateCuratorServiceAccount logging w) = [CallCreate o].
Proof.
  eexists. split; [|unfold createOrUpdateCuratorServiceAccount, sdk_Create;
                    rewrite bind_calls, perform_calls;
                    destruct (res _) as [a|]; [destruct (createFailure a)|];
                    reflexivity].
  reflexivity.
Qed.

Lemma createOrUpdateCuratorConfigMap_calls logging w :
  exists o,
    kindOf o = KConfigMap /\
    calls (createOrUpdateCuratorConfigMap logging w) = [CallCreate o].
Proof.
  eexists. split; [|unfold createOrUpdateCuratorConfigMap, sdk_Create;
                    rewrite bind_calls, perform_calls;
                    destruct (res _) as [a|]; [destruct (createFailure a)|];
                    reflexivity].
  reflexivity.
Qed.

Lemma createOrUpdateCuratorSecret_calls logging w :
  exists o,
    kindOf o = KSecret /\
    calls (createOrUpdateCuratorSecret logging w) = [CallCreate o].
Proof.
  unfold createOrUpdateCuratorSecret, utils_CreateOrUpdateSecret, sdk_Create,
    bind, perform.
  match goal with
  | |- context [store_Create ?o w] =>
      exists o; split; [reflexivity|];
      destruct (store_Create o w) as [[e|] w1]
  end; cbn; [destruct (IsAlreadyExists e)|]; reflexivity.
Qed.

Lemma updateStatus_emits cluster curatorStatus printUpdateMessage :
  emits (W:=W) statusStep (updateStatus cluster curatorStatus printUpdateMessage).
Proof.
  unfold updateStatus, utils_DoesClusterLoggingExist, sdk_GetClusterLogging, sdk_Update.
  emits_all.
Qed.

Lemma removeCurator_emits cluster : emits isDelete (removeCurator cluster).
Proof.
  unfold removeCurator, utils_RemoveServiceAccount, utils_RemoveConfigMap,
    utils_RemoveSecret, utils_RemoveCronJob, utils_Remove, sdk_Delete.
  emits_all.
Qed.

Lemma removeCurator_unmanaged cluster w :
  isManaged cluster = false ->
  removeCurator cluster w = mkOut (Returned None) w [].
Proof. intros Hm. unfold removeCurator. rewrite Hm. reflexivity. Qed.

Lemma staged_nothing (Ps : list (Call -> bool)) :
  concat (map (fun _ => @nil Call) Ps) = []
  /\ Forall2 (fun P b => Forall (fun c : Call => P c = true) b) Ps
       (map (fun _ => []) Ps).
Proof.
  induction Ps as [|P Ps [IHc IHf]]; cbn; split; auto; try constructor; auto.
Qed.

Lemma staged_stop (P : Call -> bool) Ps (b : list Call) (ok : Prop) :
  Forall (fun c => P c = true) b -> ~ ok -> StagedRun (P :: Ps) b ok.
Proof.
  intros Hb Hno. destruct (staged_nothing Ps) as [Hc Hf].
  exists (b :: map (fun _ => []) Ps). cbn. rewrite Hc, app_nil_r.
  repeat split; [constructor; assumption | contradiction].
Qed.

(** A step that ends the function on error, followed by a staged rest. *)
Lemma staged_try (P : Call -> bool) Ps (m k : M W error) (w : W) :
  emits P m ->
  (forall w0, calls (m w0) <> []) ->
  (forall w', StagedRun Ps (calls (k w')) (res (k w') = Returned None)) ->
  StagedRun (P :: Ps) (calls ((try m ;; k) w))
    (res ((try m ;; k) w) = Returned None).
Proof.
  intros Hm Hne Hk. specialize (Hm w). specialize (Hne w). unfold bind.
  destruct (m w) as [[[e|]|] w1 c1]; cbn in *.
  - rewrite app_nil_r. apply staged_stop; [exact Hm | discriminate].
  - destruct (Hk w1) as (bs & Ec & Hf & Hok).
    exists (c1 :: bs). cbn. rewrite Ec.
    repeat split; [constructor; assumption|].
    intros Hres. constructor; [exact Hne | exact (Hok Hres)].
  - apply staged_stop; [exact Hm | discriminate].
Qed.

Lemma staged_last (P : Call -> bool) A (m : M W A) (w : W) (ok : Prop) :
  emits P m -> calls (m w) <> [] -> StagedRun [P] (calls (m w)) ok.
Proof.
  intros Hm Hne. exists [calls (m w)]. cbn. rewrite app_nil_r.
  repeat split; [repeat constructor; apply Hm | intros _; repeat constructor; exact Hne].
Qed.

Lemma one_call_emits (P : Call -> bool) A (m : M W A) :
  (forall w, exists c, P c = true /\ calls (m w) = [c]) -> emits P m.
Proof.
  intros Hone w. destruct (Hone w) as (c & Hc & ->). now repeat constructor.
Qed.

Lemma one_call_nonempty (P : Call -> bool) A (m : M W A) :
  (forall w, exists c, P c = true /\ calls (m w) = [c]) ->
  forall w, calls (m w) <> [].
Proof. intros Hone w. destruct (Hone w) as (c & _ & ->). discriminate. Qed.

Lemma creates_one (k : Kind) A (m : M W A) :
  (forall w, exists o, kindOf o = k /\ calls (m w) = [CallCreate o]) ->
  forall w, exists c, createsKind k c = true /\ calls (m w) = [c].
Proof.
  intros Hm w. destruct (Hm w) as (o & <- & Ec).
  exists (CallCreate o). split; [|exact Ec]. cbn. destruct o; reflexivity.
Qed.

(** The stages of an enabled reconciliation, in the order of the code. *)
Lemma CreateOrUpdateCuration_staged cluster w :
  isCurator cluster = true ->
  StagedRun
    [createsKind KServiceAccount; createsKind KConfigMap; jobStep;
     createsKind KSecret; statusStep]
    (calls (CreateOrUpdateCuration cluster w))
    (res (CreateOrUpdateCuration cluster w) = Returned None).
Proof.
  intros Hen. unfold CreateOrUpdateCuration. rewrite Hen.
  apply staged_try;
    [ apply one_call_emits, creates_one, createOrUpdateCuratorServiceAccount_calls
    | apply one_call_nonempty with (P := createsKind KServiceAccount); apply creates_one, createOrUpdateCuratorServiceAccount_calls
    | intros w1 ].
  apply staged_try;
    [ apply one_call_emits, creates_one, createOrUpdateCuratorConfigMap_calls
    | apply one_call_nonempty with (P := createsKind KConfigMap); apply creates_one, createOrUpdateCuratorConfigMap_calls
    | intros w2 ].
  apply staged_try;
    [ apply createOrUpdateCuratorCronJob_emits
    | apply createOrUpdateCuratorCronJob_calls_nonempty
    | intros w3 ].
  apply staged_try;
    [ apply one_call_emits, creates_one, createOrUpdateCuratorSecret_calls
    | apply one_call_nonempty with (P := createsKind KSecret); apply creates_one, createOrUpdateCuratorSecret_calls
    | intros w4 ].
  apply staged_last.
  - unfold getCuratorStatus, RetryOnConflict.
    repeat first
      [ apply emits_retryLoop; intros ?; apply updateStatus_emits
      | emits_step ].
  - unfold getCuratorStatus. rewrite bind_calls, perform_calls. discriminate.
Qed.

(** Every call of a reconciliation is a call of its scheduled-job step, of
    its teardown, a creation of a static resource, or a status call. *)
Lemma CreateOrUpdateCuration_emits (P : Call -> bool) cluster :
  emits P (createOrUpdateCuratorCronJob cluster) ->
  emits P (removeCurator cluster) ->
  (forall c,
      createsKind KServiceAccount c || createsKind KConfigMap c
      || createsKind KSecret c || statusStep c = true -> P c = true) ->
  emits (W:=W) P (CreateOrUpdateCuration cluster).
Proof.
  intros Hjob Hdel HP.
  assert (Hsa : emits P (createOrUpdateCuratorServiceAccount cluster)).
  { eapply emits_weaken;
      [|apply one_call_emits, creates_one, createOrUpdateCuratorServiceAccount_calls].
    intros c Hc. apply HP. rewrite Hc. reflexivity. }
  assert (Hcm : emits P (createOrUpdateCuratorConfigMap cluster)).
  { eapply emits_weaken;
      [|apply one_call_emits, creates_one, createOrUpdateCuratorConfigMap_calls].
    intros c Hc. apply HP. rewrite Hc, !orb_true_r. reflexivity. }
  assert (Hsec : emits P (createOrUpdateCuratorSecret cluster)).
  { eapply emits_weaken;
      [|apply one_call_emits, creates_one, createOrUpdateCuratorSecret_calls].
    intros c Hc. apply HP. rewrite Hc, !orb_true_r. reflexivity. }
  assert (Hst : forall st flag, emits P (updateStatus cluster st flag)).
  { intros st flag. eapply emits_weaken; [|apply updateStatus_emits].
    intros c Hc. apply HP. rewrite Hc, !orb_true_r. reflexivity. }
  unfold CreateOrUpdateCuration, getCuratorStatus, RetryOnConflict.
  destruct (isCurator cluster).
  - repeat first
      [ assumption
      | apply emits_retryLoop; intros ?; apply Hst
      | apply emits_perform; apply HP; reflexivity
      | emits_step ].
  - apply emits_bind; [assumption | intros ?; apply emits_ret].
Qed.

(** C2.  Each of the three static-resource steps (service account, config
    map, secret) issues exactly one store call, the Create of its object,
    whatever the store holds or answers; and no call of a whole
    reconciliation is a Get or an Update of a service account, config map or
    secret.  The secret step runs [utils_CreateOrUpdateSecret] as the spec
    describes it. *)
Theorem static_resources_are_create_only (cluster : ClusterLogging.t) (w : W) :
  (exists o, kindOf o = KServiceAccount /\
             calls (createOrUpdateCuratorServiceAccount cluster w) = [CallCreate o])
  /\ (exists o, kindOf o = KConfigMap /\
                calls (createOrUpdateCuratorConfigMap cluster w) = [CallCreate o])
  /\ (exists o, kindOf o = KSecret /\
                calls (createOrUpdateCuratorSecret cluster w) = [CallCreate o])
  /\ Forall (fun c => readsOrUpdatesStatic c = false)
       (calls (CreateOrUpdateCuration cluster w)).
Proof.
  split; [apply createOrUpdateCuratorServiceAccount_calls|].
  split; [apply createOrUpdateCuratorConfigMap_calls|].
  split; [apply createOrUpdateCuratorSecret_calls|].
  assert (Hall : emits (fun c => negb (readsOrUpdatesStatic c))
                   (CreateOrUpdateCuration cluster)).
  { apply CreateOrUpdateCuration_emits.
    - eapply emits_weaken; [|apply createOrUpdateCuratorCronJob_emits].
      intros [[]|[]|[]| | |]; cbn; congruence.
    - eapply emits_weaken; [|apply removeCurator_emits].
      intros [[]|[]|[]| | |]; cbn; congruence.
    - intros [[]|[]|[]| | |]; cbn; congruence. }
  eapply Forall_impl; [|apply Hall].
  intros c Hc. now apply negb_true_iff in Hc.
Qed.

(** C9.  For a cluster that is not in fully-managed mode, no call of a
    reconciliation is a Get or an Update of a cron job or a Delete of
    anything, and [removeCurator] returns nil without a call and without
    touching the world. *)
Theorem unmanaged_never_patches_or_deletes (cluster : ClusterLogging.t) (w : W) :
  isManaged cluster = false ->
  Forall (fun c => patchesOrDeletes c = false)
    (calls (CreateOrUpdateCuration cluster w))
  /\ Forall (fun c => patchesOrDeletes c = false)
       (calls (createOrUpdateCuratorCronJob cluster w))
  /\ removeCurator cluster w = mkOut (Returned None) w [].
Proof.
  intros Hm.
  assert (Hjob : emits (fun c => negb (patchesOrDeletes c))
                   (createOrUpdateCuratorCronJob cluster)).
  { eapply emits_weaken; [|apply createOrUpdateCuratorCronJob_unmanaged, Hm].
    intros [[]|[]|[]| | |]; cbn; congruence. }
  assert (Hall : emits (fun c => negb (patchesOrDeletes c))
                   (CreateOrUpdateCuration cluster)).
  { apply CreateOrUpdateCuration_emits.
    - exact Hjob.
    - intros w0. rewrite (removeCurator_unmanaged _ w0 Hm). constructor.
    - intros [[]|[]|[]| | |]; cbn; congruence. }
  split; [|split].
  - eapply Forall_impl; [|apply Hall].
    intros c Hc. now apply negb_true_iff in Hc.
  - eapply Forall_impl; [|apply Hjob].
    intros c Hc. now apply negb_true_iff in Hc.
  - apply removeCurator_unmanaged, Hm.
Qed.

(** C8.  One attempt of the status retry loop issues an Update exactly when
    the re-fetch finds the ClusterLogging instance and its stored curator
    status differs from the freshly computed one; the Update then writes the
    fetched instance with the computed status, and [reflect.DeepEqual] on the
    two statuses is equality. *)
Theorem status_updated_iff_changed
  (cluster : ClusterLogging.t) (curatorStatus : slice CuratorStatus.t)
  (printUpdateMessage : bool) (w : W) :
  ((exists o, In (CallUpdate o)
                (calls (updateStatus cluster curatorStatus printUpdateMessage w)))
   <-> (exists fetched,
          res (utils_DoesClusterLoggingExist cluster w) = Returned (true, fetched)
          /\ ClusterLogging.CuratorStatus fetched <> curatorStatus))
  /\ (forall o,
        In (CallUpdate o)
          (calls (updateStatus cluster curatorStatus printUpdateMessage w)) ->
        exists fetched,
          res (utils_DoesClusterLoggingExist cluster w) = Returned (true, fetched)
          /\ o = ClusterLoggingObj (set_CuratorStatus fetched curatorStatus))
  /\ (forall a b, DeepEqual a b = true <-> a = b).
Proof.
  split; [|split; [|apply DeepEqual_true_iff]].
  - unfold updateStatus, utils_DoesClusterLoggingExist, sdk_GetClusterLogging,
      sdk_Update, bind, perform, logInfo, ret.
    destruct (store_GetClusterLogging cluster w) as [[[e|] fetched] w1]; cbn.
    + split; [intros [o [|[]]]; discriminate | intros [f [[=] _]]].
    + destruct (DeepEqual curatorStatus (ClusterLogging.CuratorStatus fetched)) eqn:Eq;
        cbn.
      * apply DeepEqual_true_iff in Eq.
        split; [intros [o [|[]]]; discriminate|].
        intros [f [[= <-] Hne]]. now symmetry in Eq.
      * assert (Hne : ClusterLogging.CuratorStatus fetched <> curatorStatus).
        { intros E. symmetry in E. apply DeepEqual_true_iff in E. congruence. }
        split; [intros _; exists fetched; split; [reflexivity | exact Hne]|].
        intros _. eexists.
        destruct printUpdateMessage; cbn;
          destruct (store_Update
                      (ClusterLoggingObj (set_CuratorStatus fetched curatorStatus)) w1);
          cbn; [right; right; left; reflexivity | right; left; reflexivity].
  - intros o.
    unfold updateStatus, utils_DoesClusterLoggingExist, sdk_GetClusterLogging,
      sdk_Update, bind, perform, logInfo, ret.
    destruct (store_GetClusterLogging cluster w) as [[[e|] fetched] w1]; cbn.
    + intros [|[]]; discriminate.
    + destruct (DeepEqual curatorStatus (ClusterLogging.CuratorStatus fetched)); cbn;
        [intros [|[]]; discriminate|].
      destruct printUpdateMessage; cbn;
        destruct (store_Update
                    (ClusterLoggingObj (set_CuratorStatus fetched curatorStatus)) w1);
        cbn; intros Hin;
        repeat (destruct Hin as [Hin|Hin]; try discriminate; try contradiction);
        injection Hin as <-; exists fetched; split; reflexivity.
Qed.

(** C4 (amended).  For a cluster with curation enabled, the calls of a
    reconciliation fall into five consecutive blocks, in this order: the
    creation of the service account, the creation of the config map, the
    calls on cron jobs (create, get, update), the creation of the secret, and
    the status calls; when the reconciliation succeeds none of the blocks is
    empty.  So the service account and the config map are created before any
    cron job is examined, the secret after all of them, and the status is
    synchronised last. *)
Theorem reconcile_order (cluster : ClusterLogging.t) (w : W) :
  isCurator cluster = true ->
  exists identity config jobs credentials status,
    calls (CreateOrUpdateCuration cluster w)
    = (identity ++ config ++ jobs ++ credentials ++ status)%list
    /\ Forall (fun c => createsKind KServiceAccount c = true) identity
    /\ Forall (fun c => createsKind KConfigMap c = true) config
    /\ Forall (fun c => jobStep c = true) jobs
    /\ Forall (fun c => createsKind KSecret c = true) credentials
    /\ Forall (fun c => statusStep c = true) status
    /\ (res (CreateOrUpdateCuration cluster w) = Returned None ->
        identity <> [] /\ config <> [] /\ jobs <> [] /\ credentials <> []
        /\ status <> []).
Proof.
  intros Hen.
  destruct (@CreateOrUpdateCuration_staged cluster w Hen) as (bs & Ec & Hf & Hok).
  inversion Hf as [|? b1 ? bs1 H1 Hf1]; subst.
  inversion Hf1 as [|? b2 ? bs2 H2 Hf2]; subst.
  inversion Hf2 as [|? b3 ? bs3 H3 Hf3]; subst.
  inversion Hf3 as [|? b4 ? bs4 H4 Hf4]; subst.
  inversion Hf4 as [|? b5 ? bs5 H5 Hf5]; subst.
  inversion Hf5; subst.
  exists b1, b2, b3, b4, b5. cbn in Ec. rewrite app_nil_r in Ec.
  split; [exact Ec|]. do 5 (split; [assumption|]).
  intros Hres. specialize (Hok Hres).
  inversion Hok as [|? ? N1 R1]; subst.
  inversion R1 as [|? ? N2 R2]; subst.
  inversion R2 as [|? ? N3 R3]; subst.
  inversion R3 as [|? ? N4 R4]; subst.
  inversion R4 as [|? ? N5 R5]; subst.
  exact (conj N1 (conj N2 (conj N3 (conj N4 N5)))).
Qed.

End Reconcile.

(** ** Runs on the in-memory store *)

(** C5 on a live job with a stale schedule and image. *)
Lemma isCuratorDifferent_changed_iff_witness :
  exists patched different,
    res (@isCuratorDifferent MemStore.t liveJob desiredJob MemStore.empty)
    = Returned (patched, different) /\
    (different = true <->
     CronJobSpec.Schedule (CronJob.Spec liveJob)
       <> CronJobSpec.Schedule (CronJob.Spec desiredJob)
     \/ (exists a b,
           CronJobSpec.Suspend (CronJob.Spec liveJob) = Some a /\
           CronJobSpec.Suspend (CronJob.Spec desiredJob) = Some b /\ a <> b)
     \/ Container.Image (sampleContainer "logging-curator:v1")
        <> Container.Image (sampleContainer "logging-curator:v2")).
Proof.
  apply (@isCuratorDifferent_changed_iff MemStore.t liveJob desiredJob
           MemStore.empty (sampleContainer "logging-curator:v1")
           (sampleContainer "logging-curator:v2") [] []); reflexivity.
Defined.

(** C10 on a live job without containers. *)
Lemma isCuratorDifferent_panics_iff_witness :
  res (@isCuratorDifferent MemStore.t emptyJob desiredJob
         (storeWith [CronJobObj emptyJob])) = Panicked
  /\ res (@updateCuratorIfRequired _ combinedTopology desiredJob
            (storeWith [CronJobObj emptyJob])) = Panicked.
Proof.
  destruct (@isCuratorDifferent_panics_iff _ combinedTopology emptyJob desiredJob
              (storeWith [CronJobObj emptyJob])) as [Hiff Hlive].
  split.
  - apply Hiff. left. reflexivity.
  - apply (Hlive emptyJob (storeWith [CronJobObj emptyJob])); reflexivity.
Defined.

(** C6 on a store holding a live job with a stale schedule and image. *)
Lemma update_overwrites_only_monitored_fields_witness :
  exists live w1 schedule suspend image,
    @store_GetCronJob _ combinedTopology desiredJob (storeWith [CronJobObj liveJob])
    = ((None, live), w1) /\
    CronJobObj (set_Image0 (set_Schedule liveJob defaultSchedule) "logging-curator:v2")
    = CronJobObj (set_Image0 (set_Suspend (set_Schedule live schedule) suspend) image) /\
    "curator" = ObjectMeta.Name (CronJob.Meta live) /\
    "openshift-logging" = ObjectMeta.Namespace (CronJob.Meta live) /\
    CronJob.Meta liveJob = CronJob.Meta live.
Proof.
  apply (@update_overwrites_only_monitored_fields _ combinedTopology desiredJob
           (storeWith [CronJobObj liveJob])
           (CronJobObj (set_Image0 (set_Schedule liveJob defaultSchedule)
                          "logging-curator:v2"))).
  vm_compute. right. right. right. left. reflexivity.
Defined.

(** C7 on a store that refuses gets and on an empty store. *)
Lemma updateCuratorIfRequired_get_error_witness :
  calls (@updateCuratorIfRequired _ combinedTopology desiredJob storeRefusingGets)
  = [CallGet (CronJobObj desiredJob)]
  /\ res (@updateCuratorIfRequired _ combinedTopology desiredJob storeRefusingGets)
     = Returned (Some (Errorf "Failed to get Curator cronjob: " connectionRefused))
  /\ res (@updateCuratorIfRequired _ combinedTopology desiredJob MemStore.empty)
     = Returned None.
Proof.
  destruct (@updateCuratorIfRequired_get_error _ combinedTopology desiredJob
              storeRefusingGets connectionRefused desiredJob storeRefusingGets
              eq_refl) as (Hcalls & _ & Hfatal).
  destruct (@updateCuratorIfRequired_get_error _ combinedTopology desiredJob
              MemStore.empty MemStore.notFound desiredJob MemStore.empty
              eq_refl) as (_ & Hbenign & _).
  split; [exact Hcalls|]. split.
  - apply Hfatal. reflexivity.
  - apply Hbenign. reflexivity.
Defined.

(** C8 on a store holding an instance without curator status. *)
Lemma status_updated_iff_changed_witness :
  exists o,
    In (CallUpdate o)
      (calls (@updateStatus _ combinedTopology enabledManaged (Some []) true
                (storeWith [ClusterLoggingObj enabledManaged]))).
Proof.
  apply (proj2 (proj1 (@status_updated_iff_changed _ combinedTopology enabledManaged
                         (Some []) true
                         (storeWith [ClusterLoggingObj enabledManaged])))).
  exists enabledManaged. split; [reflexivity | discriminate].
Defined.

(** C9 on an unmanaged cluster in split topology. *)
Lemma unmanaged_never_patches_or_deletes_witness :
  Forall (fun c => patchesOrDeletes c = false)
    (calls (@CreateOrUpdateCuration _ splitTopology enabledUnmanaged MemStore.empty))
  /\ Forall (fun c => patchesOrDeletes c = false)
       (calls (@createOrUpdateCuratorCronJob _ splitTopology enabledUnmanaged
                 MemStore.empty))
  /\ @removeCurator _ splitTopology enabledUnmanaged MemStore.empty
     = mkOut (Returned None) MemStore.empty [].
Proof.
  apply (@unmanaged_never_patches_or_deletes _ splitTopology enabledUnmanaged
           MemStore.empty).
  reflexivity.
Defined.

(** C4 (amended) on an enabled, fully-managed cluster and an empty store. *)
Lemma reconcile_order_witness :
  exists identity config jobs credentials status,
    calls (@CreateOrUpdateCuration _ combinedTopology enabledManaged MemStore.empty)
    = (identity ++ config ++ jobs ++ credentials ++ status)%list
    /\ Forall (fun c => createsKind KServiceAccount c = true) identity
    /\ Forall (fun c => createsKind KConfigMap c = true) config
    /\ Forall (fun c => jobStep c = true) jobs
    /\ Forall (fun c => createsKind KSecret c = true) credentials
    /\ Forall (fun c => statusStep c = true) status
    /\ (res (@CreateOrUpdateCuration _ combinedTopology enabledManaged MemStore.empty)
        = Returned None ->
        identity <> [] /\ config <> [] /\ jobs <> [] /\ credentials <> []
        /\ status <> []).
Proof.
  apply (@reconcile_order _ combinedTopology enabledManaged MemStore.empty).
  reflexivity.
Defined.

(** C4 as stated fails: on an empty store, an enabled reconciliation creates
    the secret after it has created and fetched the cron job. *)
Lemma secret_is_created_after_the_jobs :
  ~ (forall (W : Type) (E : Env W) (cluster : ClusterLogging.t) (w : W),
        isCurator cluster = true ->
        staticsBeforeJobs (calls (@CreateOrUpdateCuration W E cluster w)) = true).
Proof.
  intros Hclaim.
  specialize (Hclaim _ combinedTopology enabledManaged MemStore.empty eq_refl).
  vm_compute in Hclaim. discriminate.
Qed.

(** With curation disabled, [CreateOrUpdateCuration] returns nil whatever
    [removeCurator] returned. *)
Lemma CreateOrUpdateCuration_disabled (W : Type) (E : Env W) cluster (w : W) :
  isCurator cluster = false ->
  res (CreateOrUpdateCuration cluster w) = Returned None
  \/ res (CreateOrUpdateCuration cluster w) = Panicked
     /\ res (removeCurator cluster w) = Panicked.
Proof.
  intros Hdis. unfold CreateOrUpdateCuration. rewrite Hdis. unfold bind.
  destruct (res (removeCurator cluster w)); [left | right; split]; reflexivity.
Qed.

(** In fully-managed mode [removeCurator] deletes, in this order and until
    the first fatal error, the service account, the config map, the secret
    and the cron job, each named "curator", whatever the topology. *)
Lemma removeCurator_managed_calls (W : Type) (E : Env W) cluster (w : W) :
  isManaged cluster = true ->
  exists n,
    calls (removeCurator cluster w)
    = firstn n
        [CallDelete KServiceAccount (cluster_Namespace cluster) "curator";
         CallDelete KConfigMap (cluster_Namespace cluster) "curator";
         CallDelete KSecret (cluster_Namespace cluster) "curator";
         CallDelete KCronJob (cluster_Namespace cluster) "curator"]
    /\ (res (removeCurator cluster w) = Returned None -> n = 4).
Proof.
  intros Hm.
  unfold removeCurator, utils_RemoveServiceAccount, utils_RemoveConfigMap,
    utils_RemoveSecret, utils_RemoveCronJob, utils_Remove, sdk_Delete, bind, perform.
  rewrite Hm.
  repeat match goal with
         | |- context [store_Delete ?k ?ns ?n ?w0] =>
             destruct (store_Delete k ns n w0) as [[?e|] ?w]; cbn;
             [destruct (IsNotFound _); cbn|]
         end.
  all: first
         [ exists 4; split; [reflexivity | intros _; reflexivity]
         | exists 3; split; [reflexivity | discriminate]
         | exists 2; split; [reflexivity | discriminate]
         | exists 1; split; [reflexivity | discriminate] ].
Qed.

(** C1 (code defect).  Curation disabled, fully-managed mode, and a store
    whose delete of the service account fails with an unclassified error:
    [removeCurator] returns that error, wrapped, and
    [CreateOrUpdateCuration] returns nil. *)
Theorem teardown_error_is_dropped :
  isCurator disabledManaged = false
  /\ @store_Delete _ combinedTopology KServiceAccount "openshift-logging" "curator"
       storeRefusingDeletes
     = (Some connectionRefused, storeRefusingDeletes)
  /\ IsNotFound connectionRefused = false
  /\ res (@removeCurator _ combinedTopology disabledManaged storeRefusingDeletes)
     = Returned
         (Some (Errorf "Failure deleting curator service account: " connectionRefused))
  /\ res (@CreateOrUpdateCuration _ combinedTopology disabledManaged
            storeRefusingDeletes)
     = Returned None.
Proof. repeat split. Qed.

(** C3 (code defect).  Fully-managed mode, split topology, on the store an
    enabled reconciliation has filled: [removeCurator] deletes the service
    account, the config map, the secret and a cron job named "curator", and
    returns nil with the cron jobs "curator-app" and "curator-infra" still in
    the store. *)
Theorem teardown_misses_split_jobs :
  @AllInOne _ splitTopology disabledManaged = false
  /\ isManaged disabledManaged = true
  /\ res (@removeCurator _ splitTopology disabledManaged storeAfterSplitReconcile)
     = Returned None
  /\ calls (@removeCurator _ splitTopology disabledManaged storeAfterSplitReconcile)
     = [CallDelete KServiceAccount "openshift-logging" "curator";
        CallDelete KConfigMap "openshift-logging" "curator";
        CallDelete KSecret "openshift-logging" "curator";
        CallDelete KCronJob "openshift-logging" "curator"]
  /\ map (fun o => ObjectMeta.Name (metaOf o))
       (filter (fun o => Kind_eqb (kindOf o) KCronJob)
          (MemStore.objects
             (world (@removeCurator _ splitTopology disabledManaged
                       storeAfterSplitReconcile))))
     = ["curator-app"; "curator-infra"].
Proof. repeat split. Qed.

(** * More of [curation.go] *)

Section DiffMore.

Context {W : Type} {EnvW : Env W}.

(** [isCuratorDifferent] in full: result, world and log lines. *)
Lemma isCuratorDifferent_full (current desired : CronJob.t) (w : W) :
  isCuratorDifferent current desired w
  = mkOut
      match CronJob_Containers current, CronJob_Containers desired with
      | c0 :: _, d0 :: _ =>
          Returned (patchOf current desired c0 d0,
                    scheduleDiffers current desired
                    || suspendDiffers current desired
                    || imageDiffers c0 d0)
      | _, _ => Panicked
      end w (diffNotices current desired).
Proof.
  unfold isCuratorDifferent, diffNotices, patchOf, scheduleDiffers, suspendDiffers,
    imageDiffers.
  destruct (String.eqb (CronJobSpec.Schedule (CronJob.Spec current))
              (CronJobSpec.Schedule (CronJob.Spec desired))) eqn:Es;
    destruct (CronJobSpec.Suspend (CronJob.Spec current)) as [[|]|] eqn:Ec;
    destruct (CronJobSpec.Suspend (CronJob.Spec desired)) as [[|]|] eqn:Ed;
    unfold bind, index0, logInfo, ret, panic; cbn;
    rewrite ?Ec, ?Ed; cbn;
    rewrite ?Containers_set_Suspend, ?Containers_set_Schedule;
    destruct (CronJob_Containers current) as [|c0 cs] eqn:Ecs; cbn;
    try reflexivity.
  all: destruct (CronJob_Containers desired) as [|d0 ds] eqn:Eds; cbn;
    try reflexivity.
  all: destruct (String.eqb (Container.Image c0) (Container.Image d0)); cbn;
    reflexivity.
Qed.

Lemma Containers_set_Image0 j image c0 cs :
  CronJob_Containers j = c0 :: cs ->
  CronJob_Containers (set_Image0 j image) = set_Image c0 image :: cs.
Proof. intros Ej. unfold set_Image0. rewrite Ej. reflexivity. Qed.

Lemma Spec_set_Image0 j image :
  CronJobSpec.Schedule (CronJob.Spec (set_Image0 j image))
  = CronJobSpec.Schedule (CronJob.Spec j)
  /\ CronJobSpec.Suspend (CronJob.Spec (set_Image0 j image))
     = CronJobSpec.Suspend (CronJob.Spec j)
  /\ CronJob.Meta (set_Image0 j image) = CronJob.Meta j.
Proof.
  unfold set_Image0. destruct (CronJob_Containers j); repeat split.
Qed.

(** The monitored fields of the patched job. *)
Lemma patchOf_fields live desired c0 cs d0 :
  CronJob_Containers live = c0 :: cs ->
  CronJobSpec.Schedule (CronJob.Spec (patchOf live desired c0 d0))
  = CronJobSpec.Schedule (CronJob.Spec desired)
  /\ CronJobSpec.Suspend (CronJob.Spec (patchOf live desired c0 d0))
     = (if suspendDiffers live desired
        then CronJobSpec.Suspend (CronJob.Spec desired)
        else CronJobSpec.Suspend (CronJob.Spec live))
  /\ CronJob_Containers (patchOf live desired c0 d0)
     = (if imageDiffers c0 d0 then set_Image c0 (Container.Image d0) else c0) :: cs
  /\ CronJob.Meta (patchOf live desired c0 d0) = CronJob.Meta live.
Proof.
  intros Hc. unfold patchOf.
  assert (Hs : CronJobSpec.Schedule
                 (CronJob.Spec
                    (if scheduleDiffers live desired
                     then set_Schedule live (CronJobSpec.Schedule (CronJob.Spec desired))
                     else live))
               = CronJobSpec.Schedule (CronJob.Spec desired)).
  { unfold scheduleDiffers.
    destruct (String.eqb (CronJobSpec.Schedule (CronJob.Spec live))
                (CronJobSpec.Schedule (CronJob.Spec desired))) eqn:Es; cbn;
      [now apply String.eqb_eq in Es | reflexivity]. }
  destruct (scheduleDiffers live desired); destruct (suspendDiffers live desired);
    destruct (imageDiffers c0 d0); cbn in Hs |- *;
    rewrite ?(proj1 (Spec_set_Image0 _ _)),
      ?(proj1 (proj2 (Spec_set_Image0 _ _))),
      ?(proj2 (proj2 (Spec_set_Image0 _ _))); cbn;
    repeat split; try exact Hs; try exact Hc;
    try (apply Containers_set_Image0; exact Hc).
Qed.

(** A live job that agrees with the desired one on the monitored fields
    comes back as it is, without a log line. *)
Lemma isCuratorDifferent_clean live desired (w : W) c0 cs d0 ds :
  CronJob_Containers live = c0 :: cs ->
  CronJob_Containers desired = d0 :: ds ->
  scheduleDiffers live desired = false ->
  suspendDiffers live desired = false ->
  imageDiffers c0 d0 = false ->
  isCuratorDifferent live desired w = mkOut (Returned (live, false)) w [].
Proof.
  intros Hc Hd Hs Hp Hi. rewrite isCuratorDifferent_full.
  unfold diffNotices, patchOf. rewrite Hc, Hd, Hs, Hp, Hi. reflexivity.
Qed.

Lemma suspendDiffers_same live desired :
  CronJobSpec.Suspend (CronJob.Spec live) = CronJobSpec.Suspend (CronJob.Spec desired) ->
  suspendDiffers live desired = false.
Proof.
  unfold suspendDiffers. intros ->.
  destruct (CronJobSpec.Suspend (CronJob.Spec desired)) as [[|]|]; reflexivity.
Qed.

(** After the patch nothing differs any more. *)
Lemma patchOf_clean live desired c0 cs d0 :
  CronJob_Containers live = c0 :: cs ->
  let patched := patchOf live desired c0 d0 in
  scheduleDiffers patched desired = false
  /\ suspendDiffers patched desired = false
  /\ exists p0, CronJob_Containers patched = p0 :: cs /\ imageDiffers p0 d0 = false.
Proof.
  intros Hc patched.
  destruct (patchOf_fields live desired d0 Hc) as (Hs & Hp & Hcs & _).
  fold patched in Hs, Hp, Hcs.
  split; [unfold scheduleDiffers; rewrite Hs, String.eqb_refl; reflexivity|].
  split.
  - destruct (suspendDiffers live desired) eqn:Hd.
    + apply suspendDiffers_same. exact Hp.
    + unfold suspendDiffers in *. rewrite Hp. exact Hd.
  - eexists. split; [exact Hcs|].
    destruct (imageDiffers c0 d0) eqn:Hi; [|exact Hi].
    unfold imageDiffers. cbn. rewrite String.eqb_refl. reflexivity.
Qed.

(** X1.  Diffing is convergent: when [isCuratorDifferent] returns a patched
    job, diffing that job against the same desired job again reports no
    difference, returns it unchanged and logs nothing. *)
Theorem isCuratorDifferent_converges
  (current desired : CronJob.t) (w w' : W) (patched : CronJob.t) (different : bool) :
  res (isCuratorDifferent current desired w) = Returned (patched, different) ->
  isCuratorDifferent patched desired w' = mkOut (Returned (patched, false)) w' [].
Proof.
  rewrite isCuratorDifferent_full. cbn.
  destruct (CronJob_Containers current) as [|c0 cs] eqn:Hc; [discriminate|].
  destruct (CronJob_Containers desired) as [|d0 ds] eqn:Hd; [discriminate|].
  intros [= <- _].
  destruct (@patchOf_clean current desired c0 cs d0 Hc) as (Hs & Hp & p0 & Hcs & Hi).
  exact (@isCuratorDifferent_clean _ desired w' p0 cs d0 ds Hcs Hd Hs Hp Hi).
Qed.

(** X2.  When [isCuratorDifferent] reports no difference it hands back the
    live job as it received it and logs nothing; when it reports a
    difference it logs between one and three lines. *)
Theorem isCuratorDifferent_flag_and_logs
  (current desired : CronJob.t) (w : W) (patched : CronJob.t) (different : bool) :
  res (isCuratorDifferent current desired w) = Returned (patched, different) ->
  (different = false ->
   patched = current /\ calls (isCuratorDifferent current desired w) = [])
  /\ (different = true ->
      1 <= length (calls (isCuratorDifferent current desired w)) <= 3).
Proof.
  rewrite isCuratorDifferent_full. cbn. unfold diffNotices, patchOf.
  destruct (CronJob_Containers current) as [|c0 cs] eqn:Hc; [discriminate|].
  destruct (CronJob_Containers desired) as [|d0 ds] eqn:Hd; [discriminate|].
  destruct (scheduleDiffers current desired), (suspendDiffers current desired),
    (imageDiffers c0 d0); cbn; intros [= <- <-];
    (split; [intros Hf | intros Ht]); try discriminate; cbn; try lia.
  split; reflexivity.
Qed.

(** X3.  [isCuratorDifferent] never calls the store: whether it returns or
    panics, the world is the one it was given and everything it leaves
    behind is log lines, at most three. *)
Theorem isCuratorDifferent_only_logs (current desired : CronJob.t) (w : W) :
  world (isCuratorDifferent current desired w) = w
  /\ Forall (fun c => isLog c = true) (calls (isCuratorDifferent current desired w))
  /\ length (calls (isCuratorDifferent current desired w)) <= 3.
Proof.
  rewrite isCuratorDifferent_full. cbn. unfold diffNotices.
  split; [reflexivity|].
  destruct (scheduleDiffers current desired), (suspendDiffers current desired),
    (CronJob_Containers current) as [|c0 cs],
    (CronJob_Containers desired) as [|d0 ds]; cbn;
    try destruct (imageDiffers c0 d0); cbn;
    (split; [repeat constructor | lia]).
Qed.

End DiffMore.

(** ** Counting through composed computations *)

Section CountFacts.

Context {W : Type} {EnvW : Env W}.

Lemma countCalls_app (P : Call -> bool) (a b : list Call) :
  countCalls P (a ++ b) = countCalls P a + countCalls P b.
Proof. unfold countCalls. now rewrite filter_app, length_app. Qed.

Lemma bounded_ret A (P : Call -> bool) (n : nat) (a : A) :
  bounded (W:=W) P n (ret a).
Proof. intro w. cbn. lia. Qed.

Lemma bounded_weaken A (P : Call -> bool) (n n' : nat) (m : M W A) :
  bounded P n m -> n <= n' -> bounded P n' m.
Proof. intros Hm Hle w. specialize (Hm w). lia. Qed.

Lemma bounded_bind A B (P : Call -> bool) (a b : nat) (m : M W A) (f : A -> M W B) :
  bounded P a m -> (forall x, bounded P b (f x)) -> bounded P (a + b) (bind m f).
Proof.
  intros Hm Hf w. rewrite bind_calls, countCalls_app.
  specialize (Hm w). destruct (res (m w)) as [x|].
  - specialize (Hf x (world (m w))). lia.
  - cbn. lia.
Qed.

Lemma bounded_perform A (P : Call -> bool) (c : Call) (step : W -> A * W) :
  bounded P (if P c then 1 else 0) (perform c step).
Proof.
  intro w. rewrite perform_calls. unfold countCalls. cbn.
  destruct (P c); cbn; lia.
Qed.

Lemma bounded_of_emits A (P : Call -> bool) (m : M W A) :
  emits (fun c => negb (P c)) m -> bounded P 0 m.
Proof.
  intros Hm w. specialize (Hm w). unfold countCalls.
  induction Hm as [|c t Hc _ IH]; cbn; [lia|].
  apply negb_true_iff in Hc. rewrite Hc. exact IH.
Qed.

Lemma bounded_retryLoop S (P : Call -> bool) (k : nat) (fn : S -> M W (error * S)) :
  (forall s, bounded P k (fn s)) ->
  forall steps s lastConflictErr,
    bounded P (steps * k) (retryLoop steps fn s lastConflictErr).
Proof.
  intros Hfn steps. induction steps as [|n IH]; intros s lastErr; cbn [retryLoop].
  - apply bounded_ret.
  - cbn [Nat.mul]. apply bounded_bind; [apply Hfn|].
    intros [[e|] s'].
    + destruct (IsConflict e); [apply IH | apply bounded_ret].
    + apply bounded_ret.
Qed.

Lemma bounded_retrying (P : Call -> bool) (k : nat) (fn : M W error) :
  bounded P k fn -> bounded P (5 * k) (retrying fn).
Proof.
  intros Hfn. unfold retrying, RetryOnConflict.
  eapply bounded_weaken.
  - apply bounded_bind with (b := 0).
    + apply bounded_retryLoop with (k := k + 0). intros u.
      apply bounded_bind; [exact Hfn | intros e; apply bounded_ret].
    + intros [e u]. apply bounded_ret.
  - cbn. lia.
Qed.

Lemma issues_ret A (P : Call -> Prop) (a : A) : issues (W:=W) P (ret a).
Proof. intro w. constructor. Qed.

Lemma issues_bind A B (P : Call -> Prop) (m : M W A) (f : A -> M W B) :
  issues P m -> (forall a, issues P (f a)) -> issues P (bind m f).
Proof.
  intros Hm Hf w. rewrite bind_calls. apply Forall_app. split.
  - apply Hm.
  - destruct (res (m w)); [apply Hf | constructor].
Qed.

Lemma issues_perform A (P : Call -> Prop) (c : Call) (step : W -> A * W) :
  P c -> issues P (perform c step).
Proof. intros Hc w. rewrite perform_calls. now repeat constructor. Qed.

Lemma issues_weaken A (P Q : Call -> Prop) (m : M W A) :
  (forall c, P c -> Q c) -> issues P m -> issues Q m.
Proof. intros HPQ Hm w. eapply Forall_impl; [|apply Hm]. exact HPQ. Qed.

Lemma issues_retrying (P : Call -> Prop) (fn : M W error) :
  issues P fn -> issues P (retrying fn).
Proof.
  intros Hfn. unfold retrying, RetryOnConflict.
  apply issues_bind; [|intros [e u]; apply issues_ret].
  generalize (@None GoError) as lastErr. generalize tt as u.
  induction (Steps DefaultRetry) as [|n IH]; intros u lastErr; cbn [retryLoop].
  - apply issues_ret.
  - apply issues_bind.
    + apply issues_bind; [exact Hfn | intros e; apply issues_ret].
    + intros [[e|] s']; [destruct (IsConflict e); [apply IH|]|]; apply issues_ret.
Qed.

End CountFacts.

(** ** The fetch-diff-patch step *)

Section UpdateMore.

Context {W : Type} {EnvW : Env W}.

(** [updateCuratorIfRequired] in full when the fetch succeeds with [live]. *)
Lemma updateCuratorIfRequired_full desired (w : W) live w1 :
  store_GetCronJob desired w = ((None, live), w1) ->
  updateCuratorIfRequired desired w
  = match CronJob_Containers live, CronJob_Containers desired with
    | c0 :: _, d0 :: _ =>
        if scheduleDiffers live desired || suspendDiffers live desired
           || imageDiffers c0 d0
        then
          let patched := CronJobObj (patchOf live desired c0 d0) in
          mkOut (Returned (fst (store_Update patched w1)))
            (snd (store_Update patched w1))
            (CallGet (CronJobObj desired)
             :: diffNotices live desired ++ [CallUpdate patched])
        else mkOut (Returned None) w1
               (CallGet (CronJobObj desired) :: diffNotices live desired)
    | _, _ => mkOut Panicked w1
                (CallGet (CronJobObj desired) :: diffNotices live desired)
    end.
Proof.
  intros Hget.
  pose proof (isCuratorDifferent_full live desired w1) as Erun.
  unfold updateCuratorIfRequired, sdk_GetCronJob, perform, bind.
  rewrite Hget. cbn. rewrite Erun. clear Erun. cbn.
  destruct (CronJob_Containers live) as [|c0 cs]; [reflexivity|].
  destruct (CronJob_Containers desired) as [|d0 ds]; [reflexivity|].
  cbn.
  destruct (scheduleDiffers live desired || suspendDiffers live desired
            || imageDiffers c0 d0); cbn.
  - unfold bind, sdk_Update, perform.
    destruct (store_Update (CronJobObj (patchOf live desired c0 d0)) w1)
      as [[e|] w2]; cbn; rewrite ?app_nil_r; reflexivity.
  - rewrite app_nil_r. reflexivity.
Qed.

(** The flag of the diff in plain terms. *)
Lemma differs_true_iff live desired c0 d0 :
  scheduleDiffers live desired || suspendDiffers live desired || imageDiffers c0 d0
  = true
  <-> CronJobSpec.Schedule (CronJob.Spec live)
        <> CronJobSpec.Schedule (CronJob.Spec desired)
      \/ (exists a b,
            CronJobSpec.Suspend (CronJob.Spec live) = Some a /\
            CronJobSpec.Suspend (CronJob.Spec desired) = Some b /\ a <> b)
      \/ Container.Image c0 <> Container.Image d0.
Proof.
  unfold scheduleDiffers, suspendDiffers, imageDiffers.
  rewrite !orb_true_iff, !negb_true_iff, !String.eqb_neq.
  split.
  - intros [[Hs | Hp] | Hi]; [left; exact Hs | right; left | right; right; exact Hi].
    destruct (CronJobSpec.Suspend (CronJob.Spec live)) as [a|]; [|discriminate].
    destruct (CronJobSpec.Suspend (CronJob.Spec desired)) as [b|]; [|discriminate].
    exists a, b. repeat split.
    apply negb_true_iff in Hp. now apply eqb_false_iff in Hp.
  - intros [Hs | [(a & b & Ea & Eb & Hab) | Hi]];
      [left; left; exact Hs | left; right | right; exact Hi].
    rewrite Ea, Eb. apply negb_true_iff. now apply eqb_false_iff.
Qed.

(** X4.  No-op convergence: when the fetched live job has the desired
    schedule and first-container image, and its suspended flag is absent on
    either side or equal, [updateCuratorIfRequired] issues the Get alone,
    logs nothing, sends no Update and returns nil. *)
Theorem updateCuratorIfRequired_in_sync
  (desired : CronJob.t) (w : W) (live : CronJob.t) (w1 : W)
  (c0 d0 : Container.t) (cs ds : list Container.t) :
  store_GetCronJob desired w = ((None, live), w1) ->
  CronJob_Containers live = c0 :: cs ->
  CronJob_Containers desired = d0 :: ds ->
  CronJobSpec.Schedule (CronJob.Spec live)
  = CronJobSpec.Schedule (CronJob.Spec desired) ->
  (CronJobSpec.Suspend (CronJob.Spec live) = None
   \/ CronJobSpec.Suspend (CronJob.Spec desired) = None
   \/ CronJobSpec.Suspend (CronJob.Spec live)
      = CronJobSpec.Suspend (CronJob.Spec desired)) ->
  Container.Image c0 = Container.Image d0 ->
  updateCuratorIfRequired desired w
  = mkOut (Returned None) w1 [CallGet (CronJobObj desired)].
Proof.
  intros Hget Hc Hd Hs Hp Hi.
  assert (Es : scheduleDiffers live desired = false).
  { unfold scheduleDiffers. rewrite Hs, String.eqb_refl. reflexivity. }
  assert (Ep : suspendDiffers live desired = false).
  { destruct Hp as [Hp | [Hp | Hp]]; [| |apply suspendDiffers_same; exact Hp];
      unfold suspendDiffers; rewrite Hp;
      [|destruct (CronJobSpec.Suspend (CronJob.Spec live))]; reflexivity. }
  assert (Ei : imageDiffers c0 d0 = false).
  { unfold imageDiffers. rewrite Hi, String.eqb_refl. reflexivity. }
  rewrite (updateCuratorIfRequired_full _ _ Hget), Hc, Hd.
  unfold diffNotices. rewrite Hc, Hd, Es, Ep, Ei. reflexivity.
Qed.

(** X5.  Drift correction: when the fetched live job differs from the
    desired one in schedule, in a suspended flag present on both sides, or in
    first-container image, [updateCuratorIfRequired] issues the Get, logs,
    and sends exactly one Update as its last call; the job sent has the
    desired schedule and first-container image and the live job's metadata;
    the result is the Update's own error, unwrapped, and the world is the one
    the Update left. *)
Theorem updateCuratorIfRequired_patches
  (desired : CronJob.t) (w : W) (live : CronJob.t) (w1 : W)
  (c0 d0 : Container.t) (cs ds : list Container.t) :
  store_GetCronJob desired w = ((None, live), w1) ->
  CronJob_Containers live = c0 :: cs ->
  CronJob_Containers desired = d0 :: ds ->
  (CronJobSpec.Schedule (CronJob.Spec live)
     <> CronJobSpec.Schedule (CronJob.Spec desired)
   \/ (exists a b,
         CronJobSpec.Suspend (CronJob.Spec live) = Some a /\
         CronJobSpec.Suspend (CronJob.Spec desired) = Some b /\ a <> b)
   \/ Container.Image c0 <> Container.Image d0) ->
  exists patched logs,
    calls (updateCuratorIfRequired desired w)
    = (CallGet (CronJobObj desired) :: logs ++ [CallUpdate (CronJobObj patched)])%list
    /\ Forall (fun c => isLog c = true) logs
    /\ res (updateCuratorIfRequired desired w)
       = Returned (fst (store_Update (CronJobObj patched) w1))
    /\ world (updateCuratorIfRequired desired w)
       = snd (store_Update (CronJobObj patched) w1)
    /\ CronJobSpec.Schedule (CronJob.Spec patched)
       = CronJobSpec.Schedule (CronJob.Spec desired)
    /\ firstImage patched = firstImage desired
    /\ CronJob.Meta patched = CronJob.Meta live.
Proof.
  intros Hget Hc Hd Hdiff. apply differs_true_iff in Hdiff.
  rewrite (updateCuratorIfRequired_full _ _ Hget), Hc, Hd, Hdiff. cbn.
  destruct (patchOf_fields live desired d0 Hc) as (Hs & _ & Hcs & Hm).
  exists (patchOf live desired c0 d0), (diffNotices live desired).
  split; [reflexivity|]. split.
  { unfold diffNotices. rewrite Hc, Hd.
    destruct (scheduleDiffers live desired), (suspendDiffers live desired),
      (imageDiffers c0 d0); repeat constructor. }
  do 2 (split; [reflexivity|]). split; [exact Hs|]. split; [|exact Hm].
  unfold firstImage. rewrite Hcs, Hd.
  destruct (imageDiffers c0 d0) eqn:Hi; [reflexivity|].
  unfold imageDiffers in Hi. apply negb_false_iff, String.eqb_eq in Hi.
  now rewrite Hi.
Qed.


End UpdateMore.

(** ** The scheduled-job step *)

Section JobStepMore.

Context {W : Type} {EnvW : Env W}.

Lemma newCuratorCronJob_Suspend cluster curatorName elasticsearchHost :
  CronJobSpec.Suspend
    (CronJob.Spec (newCuratorCronJob cluster curatorName elasticsearchHost)) = None.
Proof. reflexivity. Qed.

Lemma newCuratorCronJob_Containers cluster curatorName elasticsearchHost :
  exists c,
    CronJob_Containers (newCuratorCronJob cluster curatorName elasticsearchHost) = [c].
Proof. eexists. reflexivity. Qed.

Lemma updateCuratorIfRequired_first_call desired (w : W) :
  exists rest,
    calls (updateCuratorIfRequired desired w) = CallGet (CronJobObj desired) :: rest.
Proof.
  destruct (store_GetCronJob desired w) as [[[e|] live] w1] eqn:Hget.
  - rewrite (updateCuratorIfRequired_get_failed _ _ Hget). eexists. reflexivity.
  - rewrite (updateCuratorIfRequired_full _ _ Hget).
    destruct (CronJob_Containers live) as [|c0 cs],
      (CronJob_Containers desired) as [|d0 ds];
      try destruct (_ || _); eexists; reflexivity.
Qed.

Lemma retrying_first_call (fn : M W error) (w : W) (c : Call) :
  (exists rest, calls (fn w) = c :: rest) ->
  exists rest, calls (retrying fn w) = c :: rest.
Proof.
  intros [rest Hfn]. unfold retrying, RetryOnConflict.
  change (Steps DefaultRetry) with (Datatypes.S 4). cbn [retryLoop].
  rewrite !bind_calls, Hfn. eexists. reflexivity.
Qed.

(** One block of the step: create the job, stop on a fatal error, patch it
    in fully-managed mode, go on with [rest]. *)
Lemma job_block_bounded (P : Call -> bool) (k r : nat) cluster job prefix
  (rest : M W error) :
  bounded P k (updateCuratorIfRequired job) ->
  bounded P r rest ->
  bounded P ((if P (CallCreate (CronJobObj job)) then 1 else 0) + (5 * k + r))
    (err <- sdk_Create (CronJobObj job) ;;
     match createFailure err with
     | Some e => ret (Some (Errorf prefix e))
     | None =>
         try (if isManaged cluster
              then retrying (updateCuratorIfRequired job)
              else ret None) ;;
         rest
     end).
Proof.
  intros Hk Hr. apply bounded_bind; [apply bounded_perform|].
  intros err. destruct (createFailure err); [apply bounded_ret|].
  apply bounded_bind.
  - destruct (isManaged cluster); [apply bounded_retrying, Hk | apply bounded_ret].
  - intros [e|]; [apply bounded_ret | exact Hr].
Qed.

Lemma job_block_issues (P : Call -> Prop) cluster job prefix (rest : M W error) :
  P (CallCreate (CronJobObj job)) ->
  issues P (updateCuratorIfRequired job) ->
  issues P rest ->
  issues P
    (err <- sdk_Create (CronJobObj job) ;;
     match createFailure err with
     | Some e => ret (Some (Errorf prefix e))
     | None =>
         try (if isManaged cluster
              then retrying (updateCuratorIfRequired job)
              else ret None) ;;
         rest
     end).
Proof.
  intros Hc Hk Hr. apply issues_bind; [apply issues_perform, Hc|].
  intros err. destruct (createFailure err); [apply issues_ret|].
  apply issues_bind.
  - destruct (isManaged cluster); [apply issues_retrying, Hk | apply issues_ret].
  - intros [e|]; [apply issues_ret | exact Hr].
Qed.

Lemma job_block_first_calls cluster job prefix (rest : M W error)
  (w : W) (err : error) (w1 : W) :
  isManaged cluster = true ->
  store_Create (CronJobObj job) w = (err, w1) ->
  createFailure err = None ->
  exists tl,
    calls
      ((err <- sdk_Create (CronJobObj job) ;;
        match createFailure err with
        | Some e => ret (Some (Errorf prefix e))
        | None =>
            try (if isManaged cluster
                 then retrying (updateCuratorIfRequired job)
                 else ret None) ;;
            rest
        end) w)
    = CallCreate (CronJobObj job) :: CallGet (CronJobObj job) :: tl.
Proof.
  intros Hm Hcreate Hok. rewrite Hm, bind_calls.
  unfold sdk_Create, perform. rewrite Hcreate. cbn [calls res world]. rewrite Hok.
  rewrite bind_calls.
  destruct (@retrying_first_call (updateCuratorIfRequired job) w1 _
              (updateCuratorIfRequired_first_call job w1)) as [tl Htl].
  rewrite Htl. eexists. reflexivity.
Qed.

Lemma updateCuratorIfRequired_targets job jobs :
  In job jobs -> issues (W:=W) (targets jobs) (updateCuratorIfRequired job).
Proof.
  intros Hin w.
  destruct (store_GetCronJob job w) as [[[e|] live] w1] eqn:Hget.
  - rewrite (updateCuratorIfRequired_get_failed _ _ Hget). cbn.
    repeat constructor. exists job. auto.
  - destruct (updateCuratorIfRequired_found _ _ Hget) as [logs [Hlogs Erun]].
    rewrite Erun.
    assert (Hl : Forall (targets jobs) logs).
    { eapply Forall_impl; [|exact Hlogs]. intros [] Hc; try discriminate. exact I. }
    assert (Hg : targets jobs (CallGet (CronJobObj job))) by (exists job; auto).
    destruct (CronJob_Containers live) as [|c0 cs],
      (CronJob_Containers job) as [|d0 ds];
      try destruct (_ || _); cbn; constructor; try exact Hg; try exact Hl.
    apply Forall_app. split; [exact Hl | repeat constructor].
Qed.


(** X7.  The scheduled-job step only creates and fetches the cron jobs of
    the cluster's topology: the job built for "curator" in combined topology,
    the jobs built for "curator-app" and "curator-infra" in split topology,
    never a job of the other topology. *)
Theorem createOrUpdateCuratorCronJob_targets (cluster : ClusterLogging.t) (w : W) :
  Forall (targets (desiredJobs cluster))
    (calls (createOrUpdateCuratorCronJob cluster w)).
Proof.
  revert w. change (issues (targets (desiredJobs cluster))
                      (createOrUpdateCuratorCronJob cluster)).
  unfold createOrUpdateCuratorCronJob, desiredJobs.
  destruct (AllInOne cluster).
  - apply job_block_issues;
      [ eexists; split; [left; reflexivity | reflexivity]
      | apply updateCuratorIfRequired_targets; left; reflexivity
      | apply issues_ret ].
  - apply job_block_issues;
      [ eexists; split; [left; reflexivity | reflexivity]
      | apply updateCuratorIfRequired_targets; left; reflexivity
      | ].
    apply job_block_issues;
      [ eexists; split; [right; left; reflexivity | reflexivity]
      | apply updateCuratorIfRequired_targets; right; left; reflexivity
      | apply issues_ret ].
Qed.

(** X8.  When the Create of the first cron job fails with anything but
    "already exists", the step stops there: that Create is its only call, no
    other job is created or fetched, and the result is the error wrapped
    with the message of the topology's first job. *)
Theorem createOrUpdateCuratorCronJob_first_create_fails
  (cluster : ClusterLogging.t) (w : W) (e : GoError) (w1 : W) :
  let job := if AllInOne cluster
             then newCuratorCronJob cluster "curator" "elasticsearch"
             else newCuratorCronJob cluster "curator-app" "elasticsearch-app" in
  store_Create (CronJobObj job) w = (Some e, w1) ->
  IsAlreadyExists e = false ->
  createOrUpdateCuratorCronJob cluster w
  = mkOut
      (Returned
         (Some (Errorf (if AllInOne cluster
                        then "Failure constructing Curator cronjob: "
                        else "Failure constructing Curator App cronjob: ") e)))
      w1 [CallCreate (CronJobObj job)].
Proof.
  intros job. subst job. unfold createOrUpdateCuratorCronJob.
  destruct (AllInOne cluster); intros Hcreate Hfatal;
    unfold sdk_Create, perform, bind; rewrite Hcreate; cbn; rewrite Hfatal; reflexivity.
Qed.

(** X9.  In fully-managed mode a cron job that already exists is still
    checked for drift: when the Create of the first job returns nil or
    "already exists", the next call is the Get of that same job. *)
Theorem createOrUpdateCuratorCronJob_existing_job_is_fetched
  (cluster : ClusterLogging.t) (w : W) (err : error) (w1 : W) :
  let job := if AllInOne cluster
             then newCuratorCronJob cluster "curator" "elasticsearch"
             else newCuratorCronJob cluster "curator-app" "elasticsearch-app" in
  isManaged cluster = true ->
  store_Create (CronJobObj job) w = (err, w1) ->
  createFailure err = None ->
  exists rest,
    calls (createOrUpdateCuratorCronJob cluster w)
    = CallCreate (CronJobObj job) :: CallGet (CronJobObj job) :: rest.
Proof.
  intros job Hm Hcreate Hok. subst job. unfold createOrUpdateCuratorCronJob.
  destruct (AllInOne cluster); eapply job_block_first_calls; eassumption.
Qed.

(** X10.  The step never changes a live job's suspended flag: the desired
    job built by [newCuratorCronJob] carries no flag, so every Update sent
    for it has the suspended flag the fetched live job had. *)
Theorem desired_jobs_keep_the_suspended_flag
  (cluster : ClusterLogging.t) (curatorName elasticsearchHost : string)
  (w : W) (o : Object) :
  let desired := newCuratorCronJob cluster curatorName elasticsearchHost in
  In (CallUpdate o) (calls (updateCuratorIfRequired desired w)) ->
  exists live w1 patched,
    store_GetCronJob desired w = ((None, live), w1) /\
    o = CronJobObj patched /\
    CronJobSpec.Suspend (CronJob.Spec patched)
    = CronJobSpec.Suspend (CronJob.Spec live).
Proof.
  intros desired.
  destruct (store_GetCronJob desired w) as [[[e|] live] w1] eqn:Hget.
  - rewrite (updateCuratorIfRequired_get_failed _ _ Hget). cbn.
    intros [|[]]; discriminate.
  - rewrite (updateCuratorIfRequired_full _ _ Hget).
    assert (Hnolog : ~ In (CallUpdate o) (diffNotices live desired)).
    { unfold diffNotices.
      destruct (scheduleDiffers live desired), (suspendDiffers live desired),
        (CronJob_Containers live) as [|c0 cs],
        (CronJob_Containers desired) as [|d0 ds]; cbn;
        try destruct (imageDiffers c0 d0); cbn;
        intros Hin; repeat (destruct Hin as [Hin|Hin]; try discriminate);
        exact Hin. }
    destruct (CronJob_Containers live) as [|c0 cs] eqn:Hc;
      [cbn; intros [|]; [discriminate | contradiction]|].
    destruct (CronJob_Containers desired) as [|d0 ds] eqn:Hd;
      [cbn; intros [|]; [discriminate | contradiction]|].
    destruct (scheduleDiffers live desired || suspendDiffers live desired
              || imageDiffers c0 d0);
      [|cbn; intros [|]; [discriminate | contradiction]].
    cbn. intros [|Hin]; [discriminate|].
    apply in_app_or in Hin. destruct Hin as [|[Ho|[]]]; [contradiction|].
    injection Ho as <-.
    exists live, w1, (patchOf live desired c0 d0).
    split; [reflexivity|]. split; [reflexivity|].
    destruct (patchOf_fields live desired d0 Hc) as (_ & Hp & _).
    rewrite Hp.
    assert (Hnone : suspendDiffers live desired = false).
    { unfold suspendDiffers, desired. rewrite newCuratorCronJob_Suspend.
      destruct (CronJobSpec.Suspend (CronJob.Spec live)); reflexivity. }
    rewrite Hnone. reflexivity.
Qed.

(** X11.  For a desired job built by [newCuratorCronJob], which always has
    its one container, [updateCuratorIfRequired] panics exactly when the
    fetch succeeds with a live job that has no container. *)
Theorem desired_jobs_panic_only_on_empty_live
  (cluster : ClusterLogging.t) (curatorName elasticsearchHost : string) (w : W) :
  let desired := newCuratorCronJob cluster curatorName elasticsearchHost in
  res (updateCuratorIfRequired desired w) = Panicked
  <-> exists live w1,
        store_GetCronJob desired w = ((None, live), w1)
        /\ CronJob_Containers live = [].
Proof.
  intros desired.
  destruct (newCuratorCronJob_Containers cluster curatorName elasticsearchHost)
    as [d0 Hd]. fold desired in Hd.
  destruct (store_GetCronJob desired w) as [[[e|] live] w1] eqn:Hget.
  - rewrite (updateCuratorIfRequired_get_failed _ _ Hget). cbn.
    split; [discriminate | intros (l & w2 & [=] & _)].
  - rewrite (updateCuratorIfRequired_full _ _ Hget), Hd.
    destruct (CronJob_Containers live) as [|c0 cs] eqn:Hc.
    + split; [intros _; exists live, w1; auto | reflexivity].
    + destruct (_ || _); cbn;
        (split; [discriminate | intros (l & w2 & [= <- <-] & Hl); congruence]).
Qed.

End JobStepMore.

(** ** Static resources, status and teardown *)

Section ReconcileMore.

Context {W : Type} {EnvW : Env W}.

(** A creation that tolerates "already exists" and wraps any other error. *)
Lemma create_step_result (prefix : string) (o : Object) (w : W) :
  let step : M W error :=
    err <- sdk_Create o ;;
    match createFailure err with
    | Some e => ret (Some (Errorf prefix e))
    | None => ret None
    end in
  world (step w) = snd (store_Create o w)
  /\ (res (step w) = Returned None <->
      fst (store_Create o w) = None
      \/ exists e, fst (store_Create o w) = Some e /\ IsAlreadyExists e = true)
  /\ (forall e, res (step w) = Returned (Some e) ->
      exists cause,
        fst (store_Create o w) = Some cause /\ IsAlreadyExists cause = false
        /\ e = Errorf prefix cause)
  /\ res (step w) <> Panicked.
Proof.
  cbn zeta. unfold sdk_Create, perform, bind.
  destruct (store_Create o w) as [[cause|] w1]; cbn;
    [destruct (IsAlreadyExists cause) eqn:Hae; cbn|].
  - repeat split; try discriminate.
    right. exists cause. auto.
  - repeat split; try discriminate.
    + intros [|[e [[= <-] He]]]; congruence.
    + intros e [= <-]. exists cause. auto.
  - repeat split; try discriminate. left. reflexivity.
Qed.

(** X12.  Creating the service account is idempotent and never panics: the
    step returns nil exactly when the store's Create returned nil or "already
    exists"; any other store error comes back wrapped as "Failure creating
    Curator service account: ..."; the world is the one the Create left. *)
Theorem createOrUpdateCuratorServiceAccount_result
  (logging : ClusterLogging.t) (w : W) :
  let o := utils_AddOwnerRefToObject
             (ServiceAccountObj (utils_ServiceAccount "curator" (cluster_Namespace logging)))
             (utils_AsOwner logging) in
  world (createOrUpdateCuratorServiceAccount logging w) = snd (store_Create o w)
  /\ (res (createOrUpdateCuratorServiceAccount logging w) = Returned None <->
      fst (store_Create o w) = None
      \/ exists e, fst (store_Create o w) = Some e /\ IsAlreadyExists e = true)
  /\ (forall e,
        res (createOrUpdateCuratorServiceAccount logging w) = Returned (Some e) ->
        exists cause,
          fst (store_Create o w) = Some cause /\ IsAlreadyExists cause = false
          /\ e = Errorf "Failure creating Curator service account: " cause)
  /\ res (createOrUpdateCuratorServiceAccount logging w) <> Panicked.
Proof.
  intros o. exact (create_step_result "Failure creating Curator service account: " o w).
Qed.

(** X13.  Creating the config map is idempotent and never panics: the step
    returns nil exactly when the store's Create returned nil or "already
    exists"; any other store error comes back wrapped as "Failure
    constructing Curator configmap: ..."; the world is the one the Create
    left. *)
Theorem createOrUpdateCuratorConfigMap_result
  (logging : ClusterLogging.t) (w : W) :
  let o := utils_AddOwnerRefToObject
             (ConfigMapObj
                (utils_ConfigMap "curator" (cluster_Namespace logging)
                   [("actions.yaml", GetFileContents "files/curator-actions.yaml");
                    ("curator5.yaml", GetFileContents "files/curator5-config.yaml");
                    ("config.yaml", GetFileContents "files/curator-config.yaml")]))
             (utils_AsOwner logging) in
  world (createOrUpdateCuratorConfigMap logging w) = snd (store_Create o w)
  /\ (res (createOrUpdateCuratorConfigMap logging w) = Returned None <->
      fst (store_Create o w) = None
      \/ exists e, fst (store_Create o w) = Some e /\ IsAlreadyExists e = true)
  /\ (forall e,
        res (createOrUpdateCuratorConfigMap logging w) = Returned (Some e) ->
        exists cause,
          fst (store_Create o w) = Some cause /\ IsAlreadyExists cause = false
          /\ e = Errorf "Failure constructing Curator configmap: " cause)
  /\ res (createOrUpdateCuratorConfigMap logging w) <> Panicked.
Proof.
  intros o. exact (create_step_result "Failure constructing Curator configmap: " o w).
Qed.

(** X14.  An enabled reconciliation stops at its first step: when the Create
    of the service account fails with anything but "already exists", that
    Create is the only call and the wrapped error is the result; no config
    map, cron job, secret or status call is attempted. *)
Theorem CreateOrUpdateCuration_stops_at_first_failure
  (cluster : ClusterLogging.t) (w : W) (e : GoError) (w1 : W) :
  let o := utils_AddOwnerRefToObject
             (ServiceAccountObj (utils_ServiceAccount "curator" (cluster_Namespace cluster)))
             (utils_AsOwner cluster) in
  isCurator cluster = true ->
  store_Create o w = (Some e, w1) ->
  IsAlreadyExists e = false ->
  CreateOrUpdateCuration cluster w
  = mkOut (Returned (Some (Errorf "Failure creating Curator service account: " e)))
      w1 [CallCreate o].
Proof.
  intros o Hen Hcreate Hfatal.
  assert (Hsa : createOrUpdateCuratorServiceAccount cluster w
                = mkOut (Returned
                           (Some (Errorf "Failure creating Curator service account: " e)))
                    w1 [CallCreate o]).
  { unfold createOrUpdateCuratorServiceAccount, sdk_Create, perform, bind.
    fold o. rewrite Hcreate. cbn. rewrite Hfatal. reflexivity. }
  unfold CreateOrUpdateCuration. rewrite Hen. unfold bind at 1. rewrite Hsa.
  reflexivity.
Qed.

Lemma try_bounded (P : Call -> bool) (a b : nat) (m k : M W error) :
  bounded P a m -> bounded P b k -> bounded P (a + b) (try m ;; k).
Proof.
  intros Hm Hk. apply bounded_bind; [exact Hm|].
  intros [e|]; [apply bounded_ret | exact Hk].
Qed.

Lemma updateStatus_counts cluster st flag :
  bounded (W:=W) isClusterGet 1 (updateStatus cluster st flag)
  /\ bounded (W:=W) isClusterUpdate 1 (updateStatus cluster st flag)
  /\ bounded (W:=W) isStatusCollect 0 (updateStatus cluster st flag).
Proof.
  repeat split; intro w;
    unfold updateStatus, utils_DoesClusterLoggingExist, sdk_GetClusterLogging,
      sdk_Update, bind, perform, logInfo, ret;
    destruct (store_GetClusterLogging cluster w) as [[[e|] fetched] w1]; cbn;
    try lia;
    destruct (DeepEqual st (ClusterLogging.CuratorStatus fetched)); cbn; try lia;
    destruct flag; cbn;
    destruct (store_Update (ClusterLoggingObj (set_CuratorStatus fetched st)) w1);
    cbn; lia.
Qed.

(** The calls before the status step touch neither the status collector nor
    the ClusterLogging instance. *)
Lemma early_steps_bounded (P : Call -> bool) cluster :
  (forall c, createsKind KServiceAccount c || createsKind KConfigMap c
             || jobStep c || createsKind KSecret c = true -> P c = false) ->
  bounded (W:=W) P 0 (createOrUpdateCuratorServiceAccount cluster)
  /\ bounded (W:=W) P 0 (createOrUpdateCuratorConfigMap cluster)
  /\ bounded (W:=W) P 0 (createOrUpdateCuratorCronJob cluster)
  /\ bounded (W:=W) P 0 (createOrUpdateCuratorSecret cluster).
Proof.
  intros HP. repeat split; apply bounded_of_emits.
  - eapply emits_weaken;
      [|apply one_call_emits, creates_one, createOrUpdateCuratorServiceAccount_calls].
    intros c Hc. rewrite HP; [reflexivity | rewrite Hc; reflexivity].
  - eapply emits_weaken;
      [|apply one_call_emits, creates_one, createOrUpdateCuratorConfigMap_calls].
    intros c Hc. rewrite HP; [reflexivity | rewrite Hc, !orb_true_r; reflexivity].
  - eapply emits_weaken; [|apply createOrUpdateCuratorCronJob_emits].
    intros c Hc. rewrite HP; [reflexivity | rewrite Hc, !orb_true_r; reflexivity].
  - eapply emits_weaken;
      [|apply one_call_emits, creates_one, createOrUpdateCuratorSecret_calls].
    intros c Hc. rewrite HP; [reflexivity | rewrite Hc, !orb_true_r; reflexivity].
Qed.

Lemma CreateOrUpdateCuration_bounded (P : Call -> bool) (k : nat) cluster :
  (forall c, createsKind KServiceAccount c || createsKind KConfigMap c
             || jobStep c || createsKind KSecret c = true -> P c = false) ->
  (forall c, isDelete c = true -> P c = false) ->
  (forall st flag, bounded (W:=W) P k (updateStatus cluster st flag)) ->
  bounded (W:=W) P
    ((if P (CallGetCuratorStatus (cluster_Namespace cluster)) then 1 else 0) + 5 * k)
    (CreateOrUpdateCuration cluster).
Proof.
  intros Hearly Hdel Hst.
  destruct (early_steps_bounded P cluster Hearly) as (Hsa & Hcm & Hjob & Hsec).
  unfold CreateOrUpdateCuration. destruct (isCurator cluster).
  - eapply bounded_weaken.
    + apply try_bounded; [exact Hsa|].
      apply try_bounded; [exact Hcm|].
      apply try_bounded; [exact Hjob|].
      apply try_bounded; [exact Hsec|].
      unfold getCuratorStatus. apply bounded_bind; [apply bounded_perform|].
      intros [st [e|]]; [apply bounded_ret with (n := 5 * k + 0)|].
      apply bounded_bind.
      * unfold RetryOnConflict. apply bounded_retryLoop. intros s. apply Hst.
      * intros [[e|] s]; apply bounded_ret.
    + cbn. lia.
  - eapply bounded_weaken with (n := 0 + 0); [|lia].
    apply bounded_bind; [|intros x; apply bounded_ret].
    apply bounded_of_emits. eapply emits_weaken; [|apply removeCurator_emits].
    intros c Hc. now rewrite Hdel.
Qed.

(** X15.  Call budget of the status step: a reconciliation collects the
    curator status at most once, outside the retry loop, and fetches and
    updates the ClusterLogging instance at most five times each. *)
Theorem CreateOrUpdateCuration_status_budget (cluster : ClusterLogging.t) (w : W) :
  countCalls isStatusCollect (calls (CreateOrUpdateCuration cluster w)) <= 1
  /\ countCalls isClusterGet (calls (CreateOrUpdateCuration cluster w)) <= 5
  /\ countCalls isClusterUpdate (calls (CreateOrUpdateCuration cluster w)) <= 5.
Proof.
  split; [|split].
  - apply (@CreateOrUpdateCuration_bounded isStatusCollect 0 cluster);
      try (intros [[]|[]|[]| | |]; cbn; congruence).
    intros st flag. apply updateStatus_counts.
  - apply (@CreateOrUpdateCuration_bounded isClusterGet 1 cluster);
      try (intros [[]|[]|[]| | |]; cbn; congruence).
    intros st flag. apply updateStatus_counts.
  - apply (@CreateOrUpdateCuration_bounded isClusterUpdate 1 cluster);
      try (intros [[]|[]|[]| | |]; cbn; congruence).
    intros st flag. apply updateStatus_counts.
Qed.

(** One attempt logs the notice only while the flag is still set, and
    clears the flag when it does. *)
Lemma updateStatus_notice cluster st (flag : bool) (w : W) :
  countCalls isUpdateNotice (calls (updateStatus cluster st flag w))
  <= (if flag then 1 else 0)
  /\ (forall e flag',
        res (updateStatus cluster st flag w) = Returned (e, flag') ->
        countCalls isUpdateNotice (calls (updateStatus cluster st flag w))
        + (if flag' then 1 else 0)
        <= (if flag then 1 else 0)).
Proof.
  unfold updateStatus, utils_DoesClusterLoggingExist, sdk_GetClusterLogging,
    sdk_Update, bind, perform, logInfo, ret.
  destruct (store_GetClusterLogging cluster w) as [[[e0|] fetched] w1]; cbn.
  - split; [lia|]. intros e flag' [= <- <-]. lia.
  - destruct (DeepEqual st (ClusterLogging.CuratorStatus fetched)); cbn.
    + split; [lia|]. intros e flag' [= <- <-]. lia.
    + destruct flag; cbn;
        destruct (store_Update (ClusterLoggingObj (set_CuratorStatus fetched st)) w1)
          as [u w2];
        cbn; (split; [lia|]); intros e flag' [= <- <-]; cbn; lia.
Qed.

Lemma status_loop_notice cluster st (steps : nat) :
  forall (flag : bool) lastConflictErr (w : W),
    countCalls isUpdateNotice
      (calls (retryLoop steps (updateStatus cluster st) flag lastConflictErr w))
    <= (if flag then 1 else 0).
Proof.
  induction steps as [|n IH]; intros flag lastErr w; cbn [retryLoop].
  - cbn. lia.
  - rewrite bind_calls, countCalls_app.
    destruct (updateStatus_notice cluster st flag w) as [Hle Hflag].
    destruct (res (updateStatus cluster st flag w)) as [[e flag']|] eqn:Hres.
    + specialize (Hflag e flag' eq_refl).
      destruct e as [e1|]; [destruct (IsConflict e1)|].
      * specialize (IH flag' (Some e1) (world (updateStatus cluster st flag w))). lia.
      * cbn. lia.
      * cbn. lia.
    + cbn. lia.
Qed.

Lemma updateCuratorIfRequired_no_notice desired :
  bounded (W:=W) isUpdateNotice 0 (updateCuratorIfRequired desired).
Proof.
  intro w.
  destruct (store_GetCronJob desired w) as [[[e|] live] w1] eqn:Hget.
  - rewrite (updateCuratorIfRequired_get_failed _ _ Hget). cbn. lia.
  - rewrite (updateCuratorIfRequired_full _ _ Hget). unfold diffNotices.
    destruct (CronJob_Containers live) as [|c0 cs],
      (CronJob_Containers desired) as [|d0 ds],
      (scheduleDiffers live desired), (suspendDiffers live desired); cbn;
      try destruct (imageDiffers c0 d0); cbn; lia.
Qed.

(** X16.  The notice "Updating status of Curator" is logged at most once
    per reconciliation, however many attempts the status retry loop
    makes. *)
Theorem update_notice_logged_at_most_once (cluster : ClusterLogging.t) (w : W) :
  countCalls isUpdateNotice (calls (CreateOrUpdateCuration cluster w)) <= 1.
Proof.
  revert w. change (bounded isUpdateNotice 1 (CreateOrUpdateCuration cluster)).
  assert (Hone : forall A (m : M W A),
             (forall w, exists o, calls (m w) = [CallCreate o]) ->
             bounded isUpdateNotice 0 m).
  { intros A m Hm w. destruct (Hm w) as [o ->]. cbn. lia. }
  assert (Hjob : bounded isUpdateNotice 0 (createOrUpdateCuratorCronJob cluster)).
  { unfold createOrUpdateCuratorCronJob.
    destruct (AllInOne cluster);
      (eapply bounded_weaken;
       [ repeat (eapply job_block_bounded with (k := 0);
                 [apply updateCuratorIfRequired_no_notice|]);
         apply bounded_ret with (n := 0)
       | cbn; lia ]). }
  unfold CreateOrUpdateCuration. destruct (isCurator cluster).
  - eapply bounded_weaken with (n := 0 + (0 + (0 + (0 + (0 + (1 + 0)))))); [|lia].
    apply try_bounded.
    { apply Hone. intros w.
      destruct (createOrUpdateCuratorServiceAccount_calls cluster w) as (o & _ & Ho).
      eauto. }
    apply try_bounded.
    { apply Hone. intros w.
      destruct (createOrUpdateCuratorConfigMap_calls cluster w) as (o & _ & Ho).
      eauto. }
    apply try_bounded; [exact Hjob|].
    apply try_bounded.
    { apply Hone. intros w.
      destruct (createOrUpdateCuratorSecret_calls cluster w) as (o & _ & Ho).
      eauto. }
    unfold getCuratorStatus.
    apply bounded_bind; [apply bounded_perform with (P := isUpdateNotice)|].
    intros [st [e|]]; [apply bounded_ret|].
    apply bounded_bind; [|intros [[e|] s]; apply bounded_ret].
    intros w. unfold RetryOnConflict. apply (status_loop_notice cluster st _ true).
  - eapply bounded_weaken with (n := 0 + 0); [|lia].
    apply bounded_bind; [|intros x; apply bounded_ret].
    apply bounded_of_emits. eapply emits_weaken; [|apply removeCurator_emits].
    intros [[]|[]|[]| | |]; cbn; congruence.
Qed.

Lemma staged_all (Ps : list (Call -> bool)) (Q : Call -> Prop) t ok :
  StagedRun Ps t ok ->
  Forall (fun P => forall c, P c = true -> Q c) Ps ->
  Forall Q t.
Proof.
  intros (bs & -> & Hf & _) HPs. clear ok.
  induction Hf as [|P b Ps' bs' Hb _ IH]; cbn; [constructor|].
  inversion HPs as [|? ? HP HPs']; subst.
  apply Forall_app. split; [|apply IH, HPs'].
  eapply Forall_impl; [|exact Hb]. exact HP.
Qed.

(** X17.  The two branches never mix: a reconciliation with curation
    enabled issues no Delete, and one with curation disabled issues nothing
    but Deletes, at most four of them. *)
Theorem CreateOrUpdateCuration_deletes_only_when_disabled
  (cluster : ClusterLogging.t) (w : W) :
  (isCurator cluster = true ->
   Forall (fun c => isDelete c = false) (calls (CreateOrUpdateCuration cluster w)))
  /\ (isCurator cluster = false ->
      Forall (fun c => isDelete c = true) (calls (CreateOrUpdateCuration cluster w))
      /\ length (calls (CreateOrUpdateCuration cluster w)) <= 4).
Proof.
  split; intros Hen.
  - eapply staged_all; [apply (@CreateOrUpdateCuration_staged _ _ cluster w Hen)|].
    repeat constructor; intros [[]|[]|[]| | |]; cbn; congruence.
  - assert (Hcalls : calls (CreateOrUpdateCuration cluster w)
                     = calls (removeCurator cluster w)).
    { unfold CreateOrUpdateCuration. rewrite Hen, bind_calls.
      destruct (res (removeCurator cluster w)); cbn; now rewrite app_nil_r. }
    rewrite Hcalls. split; [apply removeCurator_emits|].
    destruct (isManaged cluster) eqn:Hm.
    + destruct (@removeCurator_managed_calls _ _ cluster w Hm) as (n & -> & _).
      rewrite length_firstn. cbn. lia.
    + rewrite (removeCurator_unmanaged _ w Hm). cbn. lia.
Qed.


End ReconcileMore.

(** ** More runs on the in-memory store *)

(** X1 on a live job with a stale schedule and image. *)
Lemma isCuratorDifferent_converges_witness :
  isCuratorDifferent liveJobPatched desiredJob MemStore.empty
  = mkOut (Returned (liveJobPatched, false)) MemStore.empty [].
Proof.
  apply (@isCuratorDifferent_converges MemStore.t liveJob desiredJob MemStore.empty
           MemStore.empty liveJobPatched true).
  reflexivity.
Defined.

(** X2 on the same pair. *)
Lemma isCuratorDifferent_flag_and_logs_witness :
  1 <= length (calls (isCuratorDifferent liveJob desiredJob MemStore.empty)) <= 3.
Proof.
  apply (proj2 (@isCuratorDifferent_flag_and_logs MemStore.t liveJob desiredJob
                  MemStore.empty liveJobPatched true eq_refl)).
  reflexivity.
Defined.

(** X4 on a store that holds the desired job. *)
Lemma updateCuratorIfRequired_in_sync_witness :
  @updateCuratorIfRequired _ combinedTopology desiredJob storeInSync
  = mkOut (Returned None) storeInSync [CallGet (CronJobObj desiredJob)].
Proof.
  apply (@updateCuratorIfRequired_in_sync _ combinedTopology desiredJob storeInSync
           desiredJob storeInSync (sampleContainer "logging-curator:v2")
           (sampleContainer "logging-curator:v2") [] []);
    try reflexivity.
  right. right. reflexivity.
Defined.

(** X5 on a store that holds a live job with a stale schedule and image. *)
Lemma updateCuratorIfRequired_patches_witness :
  exists patched logs,
    calls (@updateCuratorIfRequired _ combinedTopology desiredJob
             (storeWith [CronJobObj liveJob]))
    = (CallGet (CronJobObj desiredJob) :: logs ++ [CallUpdate (CronJobObj patched)])%list
    /\ Forall (fun c => isLog c = true) logs
    /\ res (@updateCuratorIfRequired _ combinedTopology desiredJob
              (storeWith [CronJobObj liveJob]))
       = Returned (fst (@store_Update _ combinedTopology (CronJobObj patched)
                          (storeWith [CronJobObj liveJob])))
    /\ world (@updateCuratorIfRequired _ combinedTopology desiredJob
                (storeWith [CronJobObj liveJob]))
       = snd (@store_Update _ combinedTopology (CronJobObj patched)
                (storeWith [CronJobObj liveJob]))
    /\ CronJobSpec.Schedule (CronJob.Spec patched)
       = CronJobSpec.Schedule (CronJob.Spec desiredJob)
    /\ firstImage patched = firstImage desiredJob
    /\ CronJob.Meta patched = CronJob.Meta liveJob.
Proof.
  apply (@updateCuratorIfRequired_patches _ combinedTopology desiredJob
           (storeWith [CronJobObj liveJob]) liveJob (storeWith [CronJobObj liveJob])
           (sampleContainer "logging-curator:v1")
           (sampleContainer "logging-curator:v2") [] []);
    try reflexivity.
  left. discriminate.
Defined.

(** X8 on a client that refuses to create cron jobs. *)
Lemma createOrUpdateCuratorCronJob_first_create_fails_witness :
  @createOrUpdateCuratorCronJob _ refusingCronJobs enabledManaged MemStore.empty
  = mkOut
      (Returned (Some (Errorf "Failure constructing Curator cronjob: "
                         connectionRefused)))
      MemStore.empty
      [CallCreate
         (CronJobObj
            (@newCuratorCronJob _ refusingCronJobs enabledManaged "curator"
               "elasticsearch"))].
Proof.
  apply (@createOrUpdateCuratorCronJob_first_create_fails _ refusingCronJobs
           enabledManaged MemStore.empty connectionRefused MemStore.empty);
    reflexivity.
Defined.

(** X9 on an empty store. *)
Lemma createOrUpdateCuratorCronJob_existing_job_is_fetched_witness :
  exists rest,
    calls (@createOrUpdateCuratorCronJob _ combinedTopology enabledManaged
             MemStore.empty)
    = CallCreate (CronJobObj sampleDesired) :: CallGet (CronJobObj sampleDesired)
      :: rest.
Proof.
  apply (@createOrUpdateCuratorCronJob_existing_job_is_fetched _ combinedTopology
           enabledManaged MemStore.empty None
           (storeWith [CronJobObj sampleDesired]));
    reflexivity.
Defined.

(** X10 on a store that holds a live job with a stale schedule. *)
Lemma desired_jobs_keep_the_suspended_flag_witness :
  exists live w1 patched,
    @store_GetCronJob _ combinedTopology sampleDesired (storeWith [CronJobObj liveJob])
    = ((None, live), w1) /\
    CronJobObj liveJobRescheduled = CronJobObj patched /\
    CronJobSpec.Suspend (CronJob.Spec patched)
    = CronJobSpec.Suspend (CronJob.Spec live).
Proof.
  apply (@desired_jobs_keep_the_suspended_flag _ combinedTopology enabledManaged
           "curator" "elasticsearch" (storeWith [CronJobObj liveJob])
           (CronJobObj liveJobRescheduled)).
  vm_compute. right. right. left. reflexivity.
Defined.

(** X11 on a store that holds a live job without containers. *)
Lemma desired_jobs_panic_only_on_empty_live_witness :
  res (@updateCuratorIfRequired _ combinedTopology sampleDesired
         (storeWith [CronJobObj emptyJob])) = Panicked.
Proof.
  apply (proj2 (@desired_jobs_panic_only_on_empty_live _ combinedTopology
                  enabledManaged "curator" "elasticsearch"
                  (storeWith [CronJobObj emptyJob]))).
  exists emptyJob, (storeWith [CronJobObj emptyJob]). split; reflexivity.
Defined.

(** X12 on an empty store. *)
Lemma createOrUpdateCuratorServiceAccount_result_witness :
  res (@createOrUpdateCuratorServiceAccount _ combinedTopology enabledManaged
         MemStore.empty) = Returned None.
Proof.
  apply (proj1 (proj2 (@createOrUpdateCuratorServiceAccount_result _ combinedTopology
                         enabledManaged MemStore.empty))).
  left. reflexivity.
Defined.

(** X13 on an empty store. *)
Lemma createOrUpdateCuratorConfigMap_result_witness :
  res (@createOrUpdateCuratorConfigMap _ combinedTopology enabledManaged
         MemStore.empty) = Returned None.
Proof.
  apply (proj1 (proj2 (@createOrUpdateCuratorConfigMap_result _ combinedTopology
                         enabledManaged MemStore.empty))).
  left. reflexivity.
Defined.

(** X14 on a client that refuses to create service accounts. *)
Lemma CreateOrUpdateCuration_stops_at_first_failure_witness :
  exists o,
    @CreateOrUpdateCuration _ refusingServiceAccounts enabledManaged MemStore.empty
    = mkOut
        (Returned (Some (Errorf "Failure creating Curator service account: "
                           connectionRefused)))
        MemStore.empty [CallCreate o].
Proof.
  eexists.
  apply (@CreateOrUpdateCuration_stops_at_first_failure _ refusingServiceAccounts
           enabledManaged MemStore.empty connectionRefused MemStore.empty);
    reflexivity.
Defined.

(** X17 on an enabled and on a disabled cluster. *)
Lemma CreateOrUpdateCuration_deletes_only_when_disabled_witness :
  Forall (fun c => isDelete c = false)
    (calls (@CreateOrUpdateCuration _ combinedTopology enabledManaged MemStore.empty))
  /\ Forall (fun c => isDelete c = true)
       (calls (@CreateOrUpdateCuration _ combinedTopology disabledManaged
                 MemStore.empty)).
Proof.
  split.
  - apply (proj1 (@CreateOrUpdateCuration_deletes_only_when_disabled _
                    combinedTopology enabledManaged MemStore.empty)).
    reflexivity.
  - apply (proj2 (@CreateOrUpdateCuration_deletes_only_when_disabled _
                    combinedTopology disabledManaged MemStore.empty)).
    reflexivity.
Defined.

